(** * pyauto-desktop: the detection worker

    A shallow embedding of [pyauto_desktop/detection.py] (class
    [DetectionWorker]), of [pyauto_desktop/text_recognition.py] (its entry
    point and the choice of the OCR language) and of the painting of
    [pyauto_desktop/overlay.py], with the properties the specification
    states about them and further properties read off the code.

    Conventions.
    - Python integers are [Z]; Python floats are binary64 primitive floats;
      a value that may be either is a [number].
    - A rectangle is the 4-tuple [(x, y, w, h)].
    - A run of the worker is modelled by the trace it produces: the calls to
      the search, capture and text-recognition entry points and the signals
      it emits, in order.  Output written with [print] and
      [traceback.print_exc] is not part of the trace.
    - The collaborators that are not part of the modules (the screen search
      session, monitor enumeration, OpenCV, the OCR engine, the Qt painter)
      are the fields of a record [World] or arguments; each of those of
      [World] may raise. *)

From Stdlib Require Import ZArith Floats Lia.
From stdpp Require Import base gmap strings list.

Open Scope Z_scope.

(** ** Values *)

Definition Rect : Type := Z * Z * Z * Z.
Definition Point : Type := Z * Z.

(** Template images are opaque objects handed to the search primitive. *)
Inductive Image := ImageHandle (id : nat).

(** A numpy array, as far as the worker looks at it: its shape and its
    flattened contents. *)
Record ndarray := { shape : list Z; data : list Z }.

Definition size (a : ndarray) : Z := fold_right Z.mul 1 (shape a).

(** [QImage()] is the null image; [QImage(data, w, h, bytes_per_line, fmt)]
    wraps a pixel buffer.  The worker only uses [Format_RGBA8888]. *)
Inductive QImage :=
| QImage_null
| QImage_RGBA8888 (pixels : list Z) (w h bytes_per_line : Z).

(** ** Exceptions *)

Inductive exn :=
| TypeError (msg : string)
| ValueError (msg : string)
| KeyError (key : string)
| IndexError (msg : string)
| ZeroDivisionError (msg : string)
| OverflowError (msg : string)
| ImportError (msg : string)
| RuntimeError (msg : string)
| OtherError (msg : string).

(** [str(e)] *)
Definition str (e : exn) : string :=
  match e with
  | TypeError m | ValueError m | IndexError m | ZeroDivisionError m
  | OverflowError m | ImportError m | RuntimeError m | OtherError m => m
  | KeyError k => "'" +:+ k +:+ "'"
  end.

Inductive result (A : Type) :=
| Ok (a : A)
| Err (e : exn).
Arguments Ok {A} a.
Arguments Err {A} e.

(** ** The trace of a run *)

(** The keyword arguments of one call of [session.locateAllOnScreen]. *)
Record LocateArgs := {
  la_image : option Image;
  la_region : option Rect;
  la_grayscale : bool;
  la_confidence : float;
  la_overlap_threshold : float;
  la_scaling_type : string
}.

Inductive event :=
| Locate (args : LocateArgs)
| Capture (region : Rect)
| Recognize (keywords : list string)
| result_signal (rects anchors scanned : list Rect) (count : Z)
| text_signal (image : QImage) (text : string).

(** ** Statements: a writer over the trace, with [return] and [raise] *)

Inductive outcome (A : Type) :=
| Normal (a : A)
| Return
| Raise (e : exn).
Arguments Normal {A} a.
Arguments Return {A}.
Arguments Raise {A} e.

Definition Py (A : Type) : Type := list event * outcome A.

Definition ret {A} (a : A) : Py A := ([], Normal a).
Definition raise {A} (e : exn) : Py A := ([], Raise e).
Definition return_ {A} : Py A := ([], Return).
Definition emit (ev : event) : Py unit := ([ev], Normal tt).

Definition bind {A B} (m : Py A) (k : A -> Py B) : Py B :=
  match snd m with
  | Normal a => (fst m ++ fst (k a), snd (k a))
  | Return => (fst m, Return)
  | Raise e => (fst m, Raise e)
  end.

Declare Scope py_scope.
Delimit Scope py_scope with py.
Notation "x <- c ;; k" := (bind c (fun x => k))
  (at level 100, c at next level, right associativity) : py_scope.
Notation "c ;; k" := (bind c (fun _ => k))
  (at level 100, right associativity) : py_scope.
Open Scope py_scope.

Definition lift {A} (r : result A) : Py A :=
  match r with
  | Ok a => ret a
  | Err e => raise e
  end.

(** [try: body except Exception as e: handler] where the body is the whole
    function: a [return] inside the body leaves the function. *)
Definition try_except (body : Py unit) (handler : exn -> Py unit) : Py unit :=
  match snd body with
  | Raise e => (fst body ++ fst (handler e), snd (handler e))
  | _ => body
  end.

(** [for x in l: body], threading the lists the body appends to. *)
Fixpoint for_each {A S} (l : list A) (body : A -> S -> Py S) (s : S) : Py S :=
  match l with
  | [] => ret s
  | x :: l' => s' <- body x s ;; for_each l' body s'
  end.

Definition trace (m : Py unit) : list event := fst m.

(** ** Python built-ins the worker uses *)

(** What [locateAllOnScreen] hands back is iterated by the worker; a list
    can be iterated again, a generator is exhausted by the first pass. *)
Inductive pyiter :=
| PyList (items : list Rect)
| PyGenerator (items : list Rect).

(** One full pass over an iterable: the items seen and the iterable after. *)
Definition iterate (it : pyiter) : list Rect * pyiter :=
  match it with
  | PyList l => (l, PyList l)
  | PyGenerator l => (l, PyGenerator [])
  end.

(** [len(x)] *)
Definition len (it : pyiter) : result Z :=
  match it with
  | PyList l => Ok (Z.of_nat (length l))
  | PyGenerator _ => Err (TypeError "object of type 'generator' has no len()")
  end.

(** [l[i]] on a list, negative indices counting from the end. *)
Definition getitem {A} (l : list A) (i : Z) : result A :=
  let n := Z.of_nat (length l) in
  let j := if i <? 0 then i + n else i in
  if (0 <=? j) && (j <? n) then
    match l !! Z.to_nat j with
    | Some a => Ok a
    | None => Err (IndexError "list index out of range")
    end
  else Err (IndexError "list index out of range").

(** [d[key]] and [d.get(key, default)] on a dict with string keys. *)
Definition dict_getitem (d : gmap string Z) (key : string) : result Z :=
  match d !! key with
  | Some v => Ok v
  | None => Err (KeyError key)
  end.

Definition dict_get (d : gmap string Z) (key : string) (dflt : Z) : Z :=
  default dflt (d !! key).

(** Truth values: [None] and the empty dict are false, an object or a
    non-empty tuple is true, a float is true unless it is zero. *)
Definition truthy {A} (o : option A) : bool := bool_decide (is_Some o).

Definition truthy_dict (o : option (gmap string Z)) : bool :=
  match o with
  | Some d => bool_decide (d ≠ ∅)
  | None => false
  end.

Definition truthy_float (o : option float) : bool :=
  match o with
  | Some f => negb (PrimFloat.eqb f 0)
  | None => false
  end.

(** The conversion of an [int] to a [float], rounding to nearest even; it
    is exact for magnitudes up to 2^53.  Beyond the range of the floats
    Python raises [OverflowError] where this conversion gives an infinity;
    screen coordinates are far below either bound. *)
Definition float_of_int (z : Z) : float :=
  SF2Prim (binary_normalize prec emax z 0 false).

(** [int(f)]: truncation towards zero. *)
Definition int (f : float) : result Z :=
  match Prim2SF f with
  | S754_zero _ => Ok 0
  | S754_finite s m e =>
      let a := if 0 <=? e then Z.pos m * 2 ^ e else Z.pos m / 2 ^ (- e) in
      Ok (if s then - a else a)
  | S754_infinity _ => Err (OverflowError "cannot convert float infinity to integer")
  | S754_nan => Err (ValueError "cannot convert float NaN to integer")
  end.

(** [a / b] on floats. *)
Definition truediv (a b : float) : result float :=
  if PrimFloat.eqb b 0 then Err (ZeroDivisionError "float division by zero")
  else Ok (a / b)%float.

(** The quotient of two ints, [b] not zero, rounded once to the nearest
    float, ties to even: the integer quotient of the magnitudes is taken
    with enough binary digits, the remainder says on which side of the
    midpoint the exact quotient lies, and the sign is that of the exact
    quotient (also when it is zero).  A quotient beyond the largest float
    rounds to an infinity. *)
Definition rounded_quotient (a b : Z) : spec_float :=
  let negate := xorb (a <? 0) (b <? 0) in
  match Z.abs a with
  | 0 => S754_zero negate
  | abs_a =>
      let '(q, e, l) := SFdiv_core_binary prec emax abs_a 0 (Z.abs b) 0 in
      binary_round_aux prec emax negate q e l
  end.

(** [a / b] on two ints: the true division.  When both operands are below
    2^53 in magnitude they convert to floats exactly and the division of
    the floats rounds their quotient once; otherwise the quotient of the
    integers is rounded, and [OverflowError] is raised when it is too large
    for a float. *)
Definition int_truediv (a b : Z) : result float :=
  if b =? 0 then Err (ZeroDivisionError "division by zero")
  else if (Z.abs a <? 2 ^ 53) && (Z.abs b <? 2 ^ 53) then
    Ok (float_of_int a / float_of_int b)%float
  else
    match rounded_quotient a b with
    | S754_infinity _ =>
        Err (OverflowError "integer division result too large for a float")
    | q => Ok (SF2Prim q)
    end.

(** ** Numbers of either kind *)

(** A value that is an [int] or a [float], where the code takes both. *)
Inductive number :=
| PyInt (z : Z)
| PyFloat (f : float).

(** The conversion of an operand to a [float] when the other operand is
    one: an int too large for a float raises. *)
Definition to_float (n : number) : result float :=
  match n with
  | PyInt z =>
      match Prim2SF (float_of_int z) with
      | S754_infinity _ => Err (OverflowError "int too large to convert to float")
      | _ => Ok (float_of_int z)
      end
  | PyFloat f => Ok f
  end.

(** [a + b]: exact on two ints, the sum of the floats otherwise. *)
Definition add (a b : number) : result number :=
  match a, b with
  | PyInt x, PyInt y => Ok (PyInt (x + y))
  | _, _ =>
      match to_float a, to_float b with
      | Ok x, Ok y => Ok (PyFloat (x + y))
      | Err e, _ | Ok _, Err e => Err e
      end
  end.

(** [int(n)]: an int as it is, a float truncated towards zero. *)
Definition to_int (n : number) : result Z :=
  match n with
  | PyInt z => Ok z
  | PyFloat f => int f
  end.

(** [round(n)]: an int as it is, a float rounded to the nearest int, a
    tie to the even one. *)
Definition round (n : number) : result Z :=
  match n with
  | PyInt z => Ok z
  | PyFloat f =>
      match Prim2SF f with
      | S754_zero _ => Ok 0
      | S754_finite s m e =>
          let a :=
            if 0 <=? e then Z.pos m * 2 ^ e
            else
              let q := Z.pos m / 2 ^ (- e) in
              let r := Z.pos m mod 2 ^ (- e) in
              match 2 * r ?= 2 ^ (- e) with
              | Lt => q
              | Eq => if Z.even q then q else q + 1
              | Gt => q + 1
              end in
          Ok (if s then - a else a)
      | S754_infinity _ =>
          Err (OverflowError "cannot convert float infinity to integer")
      | S754_nan => Err (ValueError "cannot convert float NaN to integer")
      end
  end.

(** ** [utils.py] *)

(** A coordinate is an [int] or a [float], with Python's [+] and [-] on two
    coordinates of one kind.  On ints they are exact; on floats each rounds
    its result to the nearest float. *)
Class Coordinate (A : Type) := {
  coord_add : A -> A -> A;
  coord_sub : A -> A -> A
}.

#[global] Instance int_coordinate : Coordinate Z :=
  {| coord_add := Z.add; coord_sub := Z.sub |}.

#[global] Instance float_coordinate : Coordinate float :=
  {| coord_add := PrimFloat.add; coord_sub := PrimFloat.sub |}.

(** Modelled from the spec: [utils.global_to_local] is imported by
    [detection.py] but its module is not among the sources.  The spec:
    subtract origin.x/origin.y from rect.x/rect.y; width/height unchanged. *)
Definition global_to_local {A} `{Coordinate A} (rect : A * A * A * A)
    (origin : A * A) : A * A * A * A :=
  let '(x, y, w, h) := rect in
  let '(ox, oy) := origin in
  (coord_sub x ox, coord_sub y oy, w, h).

(** Modelled from the spec: [utils.local_to_global], likewise missing.  The
    spec: add origin.x/origin.y to rect.x/rect.y; width/height unchanged. *)
Definition local_to_global {A} `{Coordinate A} (rect : A * A * A * A)
    (origin : A * A) : A * A * A * A :=
  let '(x, y, w, h) := rect in
  let '(ox, oy) := origin in
  (coord_add x ox, coord_add y oy, w, h).

(** The values the worker passes as keyword arguments. *)
Inductive pyval :=
| PyStr (s : string)
| PyBool (b : bool).

(** ** The collaborators *)

Record World := {
  (** [functions.get_monitors_safe()]: the monitors, each [(x, y, w, h)] *)
  get_monitors_safe : result (list Rect);
  (** [functions.get_monitor_dpr(screen_idx, monitors)] *)
  get_monitor_dpr : Z -> list Rect -> result (option float);
  (** [functions.Session(screen, source_resolution, source_dpr)] *)
  Session : Z -> option (Z * Z) -> option float -> result unit;
  (** [session.locateAllOnScreen(...)] *)
  locateAllOnScreen : LocateArgs -> result pyiter;
  (** [session._prepare_capture(region)], first component of its result *)
  prepare_capture : Rect -> result (option ndarray);
  (** [cv2.cvtColor(img, cv2.COLOR_BGRA2RGBA)] *)
  cvtColor_BGRA2RGBA : ndarray -> result ndarray;
  (** [text_recognition.WINRT_AVAILABLE] *)
  WINRT_AVAILABLE : bool;
  (** [preprocess_image], [_numpy_to_software_bitmap] and
      [asyncio.run(_execute_ocr_async(bitmap, lang))] in sequence *)
  execute_ocr : ndarray -> pyval -> result (list string)
}.

(** ** The worker's attributes ([DetectionWorker.__init__]) *)

Record DetectionWorker := {
  mode : string;
  template_img : option Image;
  screen_idx : Z;
  confidence : float;
  grayscale : bool;
  overlap_threshold : float;
  search_region : option Rect;
  anchor_img : option Image;
  anchor_config : option (gmap string Z);
  source_dpr : option float;
  source_resolution : option (Z * Z);
  scaling_type : string;
  ocr_lang : string;
  ocr_mode : string;
  use_det : bool;
  text_rect : option Rect;
  text_offsets : option (Z * Z * Z * Z)
}.

(** ** [text_recognition.get_text_from_image] *)

Module text_recognition.

(** The body of [get_text_from_image(image_data, lang)]. *)
Definition get_text_from_image_body (w : World)
    (image_data : option ndarray) (lang : pyval) : result (list string) :=
  if negb (WINRT_AVAILABLE w) then
    Err (ImportError "WinRT libraries not found. Run: pip install winrt-Windows.Media.Ocr winrt-Windows.Graphics.Imaging winrt-Windows.Storage.Streams")
  else
    match image_data with
    | None => Err (ValueError "Input image_data is None or empty.")
    | Some img =>
        if size img =? 0 then Err (ValueError "Input image_data is None or empty.")
        else
          match execute_ocr w img lang with
          | Ok lines => Ok lines
          | Err e => Err (RuntimeError ("OCR Execution Failed: " +:+ str e))
          end
    end.

(** The parameters of [def get_text_from_image(image_data, lang='en-US')]. *)
Definition parameters : list string := ["image_data"; "lang"].

(** A call [get_text_from_image(image_data, **keywords)]: a keyword that
    names no parameter is a [TypeError] raised before the body runs; a
    keyword that names the positional argument is one too. *)
Definition get_text_from_image (w : World) (image_data : option ndarray)
    (keywords : list (string * pyval)) : result (list string) :=
  match List.find (fun kv => negb (bool_decide (kv.1 ∈ parameters))) keywords with
  | Some kv =>
      Err (TypeError ("get_text_from_image() got an unexpected keyword argument '"
                      +:+ kv.1 +:+ "'"))
  | None =>
      if bool_decide ("image_data" ∈ keywords.*1) then
        Err (TypeError "get_text_from_image() got multiple values for argument 'image_data'")
      else
        get_text_from_image_body w image_data
          (default (PyStr "en-US")
             (snd <$> List.find (fun kv => String.eqb kv.1 "lang") keywords))
  end.

End text_recognition.

(** ** [DetectionWorker.run_text_extraction] *)

(** [a, b, c, d = t] where [t] is a 4-tuple or [None]. *)
Definition unpack4 (t : option (Z * Z * Z * Z)) : result (Z * Z * Z * Z) :=
  match t with
  | Some q => Ok q
  | None => Err (TypeError "cannot unpack non-iterable NoneType object")
  end.

(** [h, w, ch = a.shape] *)
Definition unpack_shape (s : list Z) : result (Z * Z * Z) :=
  match s with
  | [h; w; ch] => Ok (h, w, ch)
  | _ :: _ :: _ :: _ :: _ => Err (ValueError "too many values to unpack (expected 3)")
  | _ => Err (ValueError "not enough values to unpack")
  end.

Definition newline : string :=
  String (Ascii.Ascii false true false true false false false false) EmptyString.

(** [sep.join(lines)] *)
Definition join (sep : string) (lines : list string) : string :=
  String.concat sep lines.

(** A call of [session.locateAllOnScreen], recorded in the trace. *)
Definition locate (w : World) (args : LocateArgs) : Py pyiter :=
  emit (Locate args) ;; lift (locateAllOnScreen w args).

(** A call of [session._prepare_capture], recorded in the trace. *)
Definition capture (w : World) (region : Rect) : Py (option ndarray) :=
  emit (Capture region) ;; lift (prepare_capture w region).

(** The keyword arguments of the anchor search (lines 71-78 and 193-200). *)
Definition anchor_args (self : DetectionWorker) : LocateArgs :=
  {| la_image := anchor_img self;
     la_grayscale := grayscale self;
     la_confidence := confidence self;
     la_overlap_threshold := overlap_threshold self;
     la_region := search_region self;
     la_scaling_type := scaling_type self |}.

(** The keyword arguments of a search for the template (lines 227-234 and
    250-257). *)
Definition target_args (self : DetectionWorker) (region : option Rect)
  : LocateArgs :=
  {| la_image := template_img self;
     la_region := region;
     la_grayscale := grayscale self;
     la_confidence := confidence self;
     la_overlap_threshold := overlap_threshold self;
     la_scaling_type := scaling_type self |}.

(** Lines 65-98: the region before fine tuning, [final_region]. *)
Definition resolve_region (w : World) (self : DetectionWorker)
  : Py (option Rect) :=
  if truthy (anchor_img self) && truthy_dict (anchor_config self)
     && truthy (text_rect self)
  then
    anchors_iter <- locate w (anchor_args self) ;;
    let anchors_list := (iterate anchors_iter).1 in
    match anchors_list with
    | anchor :: _ =>
        let '(ax, ay, aw, ah) := anchor in
        rel <- lift (unpack4 (text_rect self)) ;;
        let '(rel_x, rel_y, w, h) := rel in
        let final_x := ax + rel_x in
        let final_y := ay + rel_y in
        ret (Some (final_x, final_y, w, h))
    | [] =>
        emit (text_signal QImage_null "Anchor not found") ;;
        return_
    end
  else ret (text_rect self).

(** Lines 104-114: the fine-tuning offsets [(top, bottom, left, right)]
    applied to [final_region]. *)
Definition capture_region (final_region : Rect) (text_offsets : Z * Z * Z * Z)
  : Rect :=
  let '(fx, fy, fw, fh) := final_region in
  let '(top, bottom, left_, right_) := text_offsets in
  let adj_x := fx - left_ in
  let adj_y := fy - top in
  let adj_w := fw + left_ + right_ in
  let adj_h := fh + top + bottom in
  (adj_x, adj_y, adj_w, adj_h).

(** Lines 137-146: the OCR call and its own [try]/[except]. *)
Definition run_ocr (w : World) (self : DetectionWorker) (img_data : ndarray)
  : Py string :=
  let keywords :=
    [("mode", PyStr (ocr_mode self)); ("use_det", PyBool (use_det self))] in
  emit (Recognize keywords.*1) ;;
  match text_recognition.get_text_from_image w (Some img_data) keywords with
  | Ok lines => ret (join newline lines)
  | Err e => ret ("OCR Error: " +:+ str e)
  end.

(** Lines 116-148: capture, preview image, OCR, and the signal. *)
Definition capture_and_read (w : World) (self : DetectionWorker)
    (region : Rect) : Py unit :=
  img_data <- capture w region ;;
  match img_data with
  | None =>
      emit (text_signal QImage_null "Capture Error") ;;
      return_
  | Some img_data =>
      if size img_data =? 0 then
        emit (text_signal QImage_null "Capture Error") ;;
        return_
      else
        preview_img <- lift (cvtColor_BGRA2RGBA w img_data) ;;
        dims <- lift (unpack_shape (shape preview_img)) ;;
        let '(h, w_, ch) := dims in
        let bytes_per_line := ch * w_ in
        let q_img := QImage_RGBA8888 (data preview_img) w_ h bytes_per_line in
        full_text <- run_ocr w self img_data ;;
        emit (text_signal q_img full_text)
  end.

(** Lines 100-148: what follows the resolution of the region. *)
Definition after_region (w : World) (self : DetectionWorker)
    (final_region : option Rect) : Py unit :=
  match final_region with
  | None =>
      emit (text_signal QImage_null "No region defined") ;;
      return_
  | Some final_region =>
      offsets <- lift (unpack4 (text_offsets self)) ;;
      capture_and_read w self (capture_region final_region offsets)
  end.

(** Lines 51-152. *)
Definition run_text_extraction (w : World) (self : DetectionWorker) : Py unit :=
  try_except
    (lift (Session w (screen_idx self) (source_resolution self) (source_dpr self)) ;;
     monitors <- lift (get_monitors_safe w) ;;
     selected_screen <-
       (if screen_idx self <? Z.of_nat (length monitors)
        then lift (getitem monitors (screen_idx self))
        else return_) ;;
     final_region <- resolve_region w self ;;
     after_region w self final_region)
    (fun e => emit (text_signal QImage_null ("Error: " +:+ str e))).

(** ** [DetectionWorker.run_image_detection] *)

(** Lines 176-190: the scale factors. *)
Definition scale_xy (self : DetectionWorker) (target_dpr : option float)
    (selected_screen : Rect) : Py (float * float) :=
  let scale_x := 1%float in
  let scale_y := 1%float in
  if String.eqb (scaling_type self) "dpr" then
    if truthy_float (source_dpr self) && truthy_float target_dpr then
      match target_dpr, source_dpr self with
      | Some t, Some s =>
          ratio <- lift (truediv t s) ;;
          ret (ratio, ratio)
      | _, _ => raise (TypeError "unsupported operand type(s) for /")
      end
    else ret (scale_x, scale_y)
  else if String.eqb (scaling_type self) "resolution" then
    match source_resolution self with
    | Some (sr_w, sr_h) =>
        let '(_, _, tr_w, tr_h) := selected_screen in
        if (0 <? sr_w) && (0 <? sr_h) then
          scale_x <- lift (int_truediv tr_w sr_w) ;;
          scale_y <- lift (int_truediv tr_h sr_h) ;;
          ret (scale_x, scale_y)
        else ret (scale_x, scale_y)
    | None => ret (scale_x, scale_y)
    end
  else ret (scale_x, scale_y).

(** Lines 208-217: the region derived from one anchor match. *)
Definition derive_region (anchor_config : gmap string Z)
    (margin_x margin_y : Z) (anchor : Rect) : Py Rect :=
  let '(ax, ay, aw, ah) := anchor in
  offset_x <- lift (dict_getitem anchor_config "offset_x") ;;
  offset_y <- lift (dict_getitem anchor_config "offset_y") ;;
  let rel_rect_with_margin :=
    global_to_local (offset_x, offset_y, 0, 0) (margin_x, margin_y) in
  let '(region_x, region_y, _, _) :=
    local_to_global rel_rect_with_margin (ax, ay) in
  cfg_w <- lift (dict_getitem anchor_config "w") ;;
  let region_w := cfg_w + margin_x * 2 in
  cfg_h <- lift (dict_getitem anchor_config "h") ;;
  let region_h := cfg_h + margin_y * 2 in
  ret (region_x, region_y, region_w, region_h).

(** Lines 207-237: the body of the loop over the anchors.  The state is the
    pair of lists the body appends to, [(final_rects, scanned_regions)]. *)
Definition anchor_body (w : World) (self : DetectionWorker)
    (anchor_config : gmap string Z) (margin_x margin_y : Z)
    (selected_screen : Rect) (anchor : Rect) (st : list Rect * list Rect)
  : Py (list Rect * list Rect) :=
  let '(final_rects, scanned_regions) := st in
  region <- derive_region anchor_config margin_x margin_y anchor ;;
  let '(region_x, region_y, region_w, region_h) := region in
  if (region_w <=? 0) || (region_h <=? 0) then
    ret (final_rects, scanned_regions)
  else
    let scanned_regions :=
      scanned_regions ++ [(region_x, region_y, region_w, region_h)] in
    let '(mx, my, mw, mh) := selected_screen in
    let local_search_region :=
      global_to_local (region_x, region_y, region_w, region_h) (mx, my) in
    targets <- locate w (target_args self (Some local_search_region)) ;;
    (* for rect in targets: final_rects.append(rect) *)
    let final_rects := final_rects ++ (iterate targets).1 in
    let targets := (iterate targets).2 in
    (* final_rects.extend(list(targets)) *)
    let final_rects := final_rects ++ (iterate targets).1 in
    ret (final_rects, scanned_regions).

(** Lines 240-258: the scan without an anchor. *)
Definition direct_scan (w : World) (self : DetectionWorker)
    (scale_x scale_y : float) (found_anchors scanned_regions : list Rect)
  : Py unit :=
  scanned_regions <-
    match search_region self with
    | Some (rx, ry, rw, rh) =>
        sx <- lift (int (float_of_int rx * scale_x)) ;;
        sy <- lift (int (float_of_int ry * scale_y)) ;;
        sw <- lift (int (float_of_int rw * scale_x)) ;;
        sh <- lift (int (float_of_int rh * scale_y)) ;;
        ret (scanned_regions ++ [(sx, sy, sw, sh)])
    | None => ret scanned_regions
    end ;;
  rects <- locate w (target_args self (search_region self)) ;;
  let final_rects := rects in
  count <- lift (len final_rects) ;;
  match final_rects with
  | PyList items => emit (result_signal items found_anchors scanned_regions count)
  | PyGenerator _ => raise (TypeError "object of type 'generator' has no len()")
  end.

(** Lines 154-265. *)
Definition run_image_detection (w : World) (self : DetectionWorker) : Py unit :=
  try_except
    (let final_rects : list Rect := [] in
     let found_anchors : list Rect := [] in
     let scanned_regions : list Rect := [] in
     monitors <- lift (get_monitors_safe w) ;;
     lift (Session w (screen_idx self) (source_resolution self) (source_dpr self)) ;;
     selected_screen <-
       (if screen_idx self <? Z.of_nat (length monitors)
        then lift (getitem monitors (screen_idx self))
        else emit (result_signal [] [] [] 0) ;; return_) ;;
     target_dpr <- lift (get_monitor_dpr w (screen_idx self) monitors) ;;
     scale <- scale_xy self target_dpr selected_screen ;;
     if truthy (anchor_img self) && truthy_dict (anchor_config self) then
       anchors_iter <- locate w (anchor_args self) ;;
       let anchors_list := (iterate anchors_iter).1 in
       let found_anchors := anchors_list in
       match anchor_config self with
       | None => raise (OtherError "'NoneType' object has no attribute 'get'")
       | Some cfg =>
           let margin_x := dict_get cfg "margin_x" 0 in
           let margin_y := dict_get cfg "margin_y" 0 in
           st <- for_each anchors_list
                   (anchor_body w self cfg margin_x margin_y selected_screen)
                   (final_rects, scanned_regions) ;;
           emit (result_signal st.1 found_anchors st.2 (Z.of_nat (length st.1)))
       end
     else
       direct_scan w self scale.1 scale.2 found_anchors scanned_regions)
    (fun e => emit (result_signal [] [] [] 0)).

(** ** [DetectionWorker.run] *)

Definition run (w : World) (self : DetectionWorker) : Py unit :=
  if String.eqb (mode self) "text" then run_text_extraction w self
  else run_image_detection w self.

(** ** [text_recognition._execute_ocr_async] *)

Module ocr.

(** A recognizer language of WinRT, as far as the code looks at it. *)
Record Language := { language_tag : string }.

(** OCR engines and software bitmaps are opaque objects. *)
Inductive OcrEngine := EngineHandle (id : nat).
Inductive SoftwareBitmap := BitmapHandle (id : nat).

(** [winrt.windows.media.ocr.OcrEngine], the class: the languages it
    offers, its two factories ([None] when no engine can be made) and the
    recognition of an engine, with the texts of the lines it finds. *)
Record WinRT := {
  available_recognizer_languages : list Language;
  try_create_from_language : Language -> option OcrEngine;
  try_create_from_user_profile_languages : option OcrEngine;
  recognize_async : OcrEngine -> SoftwareBitmap -> result (list string)
}.

(** [s.lower()] on the ASCII letters; language tags are ASCII. *)
Definition lower_char (c : Ascii.ascii) : Ascii.ascii :=
  let n := Ascii.nat_of_ascii c in
  if ((65 <=? n) && (n <=? 90))%nat then Ascii.ascii_of_nat (n + 32) else c.

Fixpoint lower (s : string) : string :=
  match s with
  | EmptyString => EmptyString
  | String c s' => String (lower_char c) (lower s')
  end.

(** [needle in hay] on strings: [needle] starts at some position of
    [hay]. *)
Fixpoint contains (needle hay : string) : bool :=
  match hay with
  | EmptyString => String.prefix needle EmptyString
  | String c hay' => String.prefix needle hay || contains needle hay'
  end.

(** Lines 48-54: the first language whose tag contains the requested one,
    both in lower case. *)
Definition find_language (lang_tag : string) (possible_langs : list Language)
  : option Language :=
  List.find
    (fun l => contains (lower lang_tag) (lower (language_tag l)))
    possible_langs.

(** Lines 43-66. *)
Definition execute_ocr_async (winrt_available : bool) (rt : WinRT)
    (bitmap : SoftwareBitmap) (lang_tag : string) : result (list string) :=
  if negb winrt_available then
    Err (ImportError "WinRT dependencies are missing. Please install winrt-Windows.Media.Ocr")
  else
    let lang_found := find_language lang_tag (available_recognizer_languages rt) in
    let engine :=
      match lang_found with
      | Some l => try_create_from_language rt l
      | None => try_create_from_user_profile_languages rt
      end in
    match engine with
    | None =>
        Err (RuntimeError ("Failed to create OcrEngine. Language '" +:+ lang_tag
                           +:+ "' might not be installed on this Windows system."))
    | Some engine => recognize_async rt engine bitmap
    end.

End ocr.

(** ** [overlay.Overlay] *)

Module overlay.

(** A rectangle as the widget receives it: each component an int or a
    float. *)
Definition NumRect : Type := number * number * number * number.

(** The attributes of the widget that the methods below read or write. *)
Record Overlay := {
  target_offset_x : number;
  target_offset_y : number;
  show_click : bool;
  click_offset_x : number;
  click_offset_y : number;
  rects : list NumRect;
  scale_factor : float
}.

(** What the painter is asked to do: [setPen(QPen(QColor(r, g, b), width))],
    [setBrush] with a colour and its alpha, [drawRect(x, y, w, h)] and
    [drawEllipse(center, rx, ry)]. *)
Inductive paint :=
| setPen (r g b width : Z)
| setBrush (r g b alpha : Z)
| drawRect (x y w h : Z)
| drawEllipse (center : Point) (rx ry : Z).

Definition pen_box : paint := setPen 0 255 0 2.
Definition brush_box : paint := setBrush 0 255 0 50.
Definition pen_dot : paint := setPen 255 0 0 2.
Definition brush_dot : paint := setBrush 255 0 0 255.

(** The statements of [paintEvent]: what the painter was asked to do so
    far, and a value or the exception that ended the statement. *)
Definition Painting (A : Type) : Type := list paint * result A.

Definition call (p : paint) : Painting unit := ([p], Ok tt).
Definition eval {A} (r : result A) : Painting A := ([], r).

Definition and_then {A B} (m : Painting A) (k : A -> Painting B) : Painting B :=
  match snd m with
  | Ok a => (fst m ++ fst (k a), snd (k a))
  | Err e => (fst m, Err e)
  end.

Declare Scope paint_scope.
Notation "x <- c ;; k" := (and_then c (fun x => k))
  (at level 100, c at next level, right associativity) : paint_scope.
Notation "c ;; k" := (and_then c (fun _ => k))
  (at level 100, right associativity) : paint_scope.
Local Open Scope paint_scope.

(** [set_target_screen_offset]: no repaint is asked for. *)
Definition set_target_screen_offset (self : Overlay) (x y : number) : Overlay :=
  {| target_offset_x := x;
     target_offset_y := y;
     show_click := show_click self;
     click_offset_x := click_offset_x self;
     click_offset_y := click_offset_y self;
     rects := rects self;
     scale_factor := scale_factor self |}.

(** [update_rects], before its call of [self.update()]. *)
Definition update_rects (self : Overlay) (new_rects : list NumRect)
    (new_scale_factor : float) : Overlay :=
  {| target_offset_x := target_offset_x self;
     target_offset_y := target_offset_y self;
     show_click := show_click self;
     click_offset_x := click_offset_x self;
     click_offset_y := click_offset_y self;
     rects := new_rects;
     scale_factor := new_scale_factor |}.

(** Lines 94-104: the box of one rectangle.  [mapFromGlobal] is the
    widget's mapping of a global point; the position handed to it is
    truncated, the size is rounded. *)
Definition box (mapFromGlobal : Point -> Point) (self : Overlay)
    (rect : NumRect) : Painting Rect :=
  let '(x, y, w, h) := rect in
  global_x <- eval (add x (target_offset_x self)) ;;
  global_y <- eval (add y (target_offset_y self)) ;;
  point_x <- eval (to_int global_x) ;;
  point_y <- eval (to_int global_y) ;;
  let top_left_local := mapFromGlobal (point_x, point_y) in
  let draw_x := top_left_local.1 in
  let draw_y := top_left_local.2 in
  draw_w <- eval (round w) ;;
  draw_h <- eval (round h) ;;
  (([], Ok (draw_x, draw_y, draw_w, draw_h)) : Painting Rect).

(** Lines 119-125: the centre of the click target. *)
Definition click_target (self : Overlay) (drawn : Rect) : Painting Point :=
  let '(draw_x, draw_y, draw_w, draw_h) := drawn in
  half_w <- eval (int_truediv draw_w 2) ;;
  local_center_x <- eval (add (PyInt draw_x) (PyFloat half_w)) ;;
  half_h <- eval (int_truediv draw_h 2) ;;
  local_center_y <- eval (add (PyInt draw_y) (PyFloat half_h)) ;;
  sum_x <- eval (add local_center_x (click_offset_x self)) ;;
  target_x <- eval (to_int sum_x) ;;
  sum_y <- eval (add local_center_y (click_offset_y self)) ;;
  target_y <- eval (to_int sum_y) ;;
  (([], Ok (target_x, target_y)) : Painting Point).

(** Lines 89-129: the body of the loop, for one rectangle. *)
Definition paint_match (mapFromGlobal : Point -> Point) (self : Overlay)
    (rect : NumRect) : Painting unit :=
  drawn <- box mapFromGlobal self rect ;;
  let '(draw_x, draw_y, draw_w, draw_h) := drawn in
  call pen_box ;;
  call brush_box ;;
  call (drawRect draw_x draw_y draw_w draw_h) ;;
  if show_click self then
    target_local <- click_target self drawn ;;
    call pen_dot ;;
    call brush_dot ;;
    call (drawEllipse target_local 4 4)
  else eval (Ok tt).

(** The loop of line 89. *)
Fixpoint paint_rects (mapFromGlobal : Point -> Point) (self : Overlay)
    (l : list NumRect) : Painting unit :=
  match l with
  | [] => eval (Ok tt)
  | rect :: l' =>
      paint_match mapFromGlobal self rect ;;
      paint_rects mapFromGlobal self l'
  end.

(** [paintEvent]: what the painter is asked to do, in order.  An exception
    ends the painting and is printed (lines 131-132); nothing is raised. *)
Definition paintEvent (mapFromGlobal : Point -> Point) (self : Overlay)
  : list paint :=
  match rects self with
  | [] => []
  | _ :: _ =>
      fst (call pen_box ;;
           call brush_box ;;
           paint_rects mapFromGlobal self (rects self))
  end.

End overlay.

(** * The vocabulary of the properties *)

(** ** Rectangles and traces *)

(** The third and fourth components of a rectangle. *)
Definition width {A} (r : A * A * A * A) : A := r.1.2.
Definition height {A} (r : A * A * A * A) : A := r.2.

(** The signals of a trace, in order. *)
Definition is_signal (ev : event) : bool :=
  match ev with
  | result_signal _ _ _ _ | text_signal _ _ => true
  | _ => false
  end.

Definition signals (t : list event) : list event := List.filter is_signal t.

(** ** Statements that keep the run's contract *)

(** A statement that emits no signal, and that raises whenever one of
    the searches it made raised. *)
Definition tame (w : World) {A} (m : Py A) : Prop :=
  signals (fst m) = [] /\
  forall args e, Locate args ∈ fst m -> locateAllOnScreen w args = Err e ->
                 exists e', snd m = Raise e'.

(** A statement that has emitted no signal when it raises, and that
    raises whenever one of the searches it made raised. *)
Definition guarded (w : World) {A} (m : Py A) : Prop :=
  (forall e, snd m = Raise e -> signals (fst m) = []) /\
  forall args e, Locate args ∈ fst m -> locateAllOnScreen w args = Err e ->
                 exists e', snd m = Raise e'.

(** ** Image detection *)

(** The result emitted at lines 172 and 265. *)
Definition empty_result : event := result_signal [] [] [] 0.

(** The monitors are listed, the session is built, the monitor index
    selects [selected_screen], its pixel ratio is read and the scale
    factors are computed: the run gets past line 190. *)
Definition image_setup (w : World) (self : DetectionWorker)
    (selected_screen : Rect) : Prop :=
  exists monitors target_dpr scale,
    get_monitors_safe w = Ok monitors /\
    Session w (screen_idx self) (source_resolution self) (source_dpr self) = Ok tt /\
    screen_idx self < Z.of_nat (length monitors) /\
    getitem monitors (screen_idx self) = Ok selected_screen /\
    get_monitor_dpr w (screen_idx self) monitors = Ok target_dpr /\
    scale_xy self target_dpr selected_screen = ret scale.

(** An integer below 2^53 in magnitude: its conversion to a float is
    exact. *)
Definition exact_size (z : Z) : Prop := Z.abs z < 2 ^ 53.

(** The sizes that enter the scale factors, those of the monitor and of
    the source resolution when there is one, are such integers. *)
Definition screen_sizes (self : DetectionWorker) (target_w target_h : Z)
  : Prop :=
  exact_size target_w /\ exact_size target_h /\
  match source_resolution self with
  | Some (source_w, source_h) => exact_size source_w /\ exact_size source_h
  | None => True
  end.

(** The derived region as the specification states it, in closed form;
    [derive_region_of] below shows that lines 208-217 compute it. *)
Definition region_of (ox oy cw ch mx my : Z) (anchor : Rect) : Rect :=
  let '(ax, ay, _, _) := anchor in
  (ax + ox - mx, ay + oy - my, cw + 2 * mx, ch + 2 * my).

(** The arguments of the nested scan of a region on a monitor. *)
Definition nested_args (self : DetectionWorker) (selected_screen : Rect)
    (region : Rect) : LocateArgs :=
  let '(mx, my, _, _) := selected_screen in
  target_args self (Some (global_to_local region (mx, my))).

(** What the two passes over the result of a nested scan append (lines
    235-237). *)
Definition both_passes (targets : pyiter) : list Rect :=
  (iterate targets).1 ++ (iterate (iterate targets).2).1.

(** ** Region capture *)

(** The session is built and the monitor index selects [selected_screen]:
    the run of the region capture gets past line 63. *)
Definition text_setup (w : World) (self : DetectionWorker)
    (selected_screen : Rect) : Prop :=
  Session w (screen_idx self) (source_resolution self) (source_dpr self) = Ok tt /\
  exists monitors,
    get_monitors_safe w = Ok monitors /\
    screen_idx self < Z.of_nat (length monitors) /\
    getitem monitors (screen_idx self) = Ok selected_screen.

(** Lines 150-152: the handler of the region capture. *)
Definition text_handler (e : exn) : Py unit :=
  emit (text_signal QImage_null ("Error: " +:+ str e)).

(** Line 69: anchor image, anchor configuration and base rectangle are all
    set. *)
Definition anchor_configured (self : DetectionWorker) : bool :=
  truthy (anchor_img self) && truthy_dict (anchor_config self)
  && truthy (text_rect self).

(** The run delivers the null image with [reason] as its only signal. *)
Definition fails_with (reason : string) (m : Py unit) : Prop :=
  signals (trace m) = [text_signal QImage_null reason].

(** Line 120: [img_data is None or img_data.size == 0]. *)
Definition no_data (r : result (option ndarray)) : Prop :=
  r = Ok None \/ exists img, r = Ok (Some img) /\ size img = 0.

(** The anchor search was made and found nothing. *)
Definition anchor_missing (w : World) (self : DetectionWorker) : Prop :=
  anchor_configured self = true /\
  exists anchors_iter,
    locateAllOnScreen w (anchor_args self) = Ok anchors_iter /\
    (iterate anchors_iter).1 = [].

(** Neither the anchor nor a fixed rectangle gives a region. *)
Definition region_missing (self : DetectionWorker) : Prop :=
  anchor_configured self = false /\ text_rect self = None.

(** The region a run resolves (lines 65-98): the base rectangle moved to
    the first anchor found when anchor image, anchor configuration and base
    rectangle are all set, the base rectangle as it is otherwise. *)
Definition resolves (w : World) (self : DetectionWorker) (region : Rect)
  : Prop :=
  if anchor_configured self then
    exists anchors_iter ax ay aw ah others rel_x rel_y rw rh,
      locateAllOnScreen w (anchor_args self) = Ok anchors_iter /\
      (iterate anchors_iter).1 = (ax, ay, aw, ah) :: others /\
      text_rect self = Some (rel_x, rel_y, rw, rh) /\
      region = (ax + rel_x, ay + rel_y, rw, rh)
  else text_rect self = Some region.

(** The rectangle a run asks the capture primitive for: the region it
    resolves, fine-tuned by the offsets. *)
Definition capture_request (w : World) (self : DetectionWorker) (r : Rect)
  : Prop :=
  exists region offsets,
    resolves w self region /\ text_offsets self = Some offsets /\
    r = capture_region region offsets.

(** A prefix of a trace without a signal, in which every capture yielded
    data and every call of the text recognition carried the keywords
    [mode] and [use_det] only. *)
Definition quiet (w : World) (pre : list event) : Prop :=
  signals pre = [] /\
  (forall r, Capture r ∈ pre -> ~ no_data (prepare_capture w r)) /\
  (forall keywords, Recognize keywords ∈ pre -> keywords = ["mode"; "use_det"]).

(** The five ways a run of the region capture ends once it is past the
    selection of the monitor.  A run that ends in an error or delivers an
    image is one whose capture request, if it has one, yields data. *)
Inductive text_run (w : World) (self : DetectionWorker) : Py unit -> Prop :=
| run_anchor_not_found :
    anchor_missing w self ->
    text_run w self
      ([Locate (anchor_args self); text_signal QImage_null "Anchor not found"],
       Return)
| run_no_region :
    region_missing self ->
    text_run w self ([text_signal QImage_null "No region defined"], Return)
| run_capture_error pre r :
    ~ anchor_missing w self -> ~ region_missing self -> quiet w pre ->
    no_data (prepare_capture w r) -> capture_request w self r ->
    text_run w self
      (pre ++ [Capture r; text_signal QImage_null "Capture Error"], Return)
| run_error pre e :
    ~ anchor_missing w self -> ~ region_missing self -> quiet w pre ->
    (forall r, capture_request w self r -> ~ no_data (prepare_capture w r)) ->
    text_run w self
      (pre ++ [text_signal QImage_null ("Error: " +:+ str e)], Normal tt)
| run_success pre pixels qw qh bytes_per_line text :
    ~ anchor_missing w self -> ~ region_missing self -> quiet w pre ->
    (forall r, capture_request w self r -> ~ no_data (prepare_capture w r)) ->
    text_run w self
      (pre ++ [text_signal (QImage_RGBA8888 pixels qw qh bytes_per_line) text],
       Normal tt).

(** The worker with its [ocr_lang] attribute set to [lang]. *)
Definition with_ocr_lang (lang : string) (self : DetectionWorker)
  : DetectionWorker :=
  {| mode := mode self;
     template_img := template_img self;
     screen_idx := screen_idx self;
     confidence := confidence self;
     grayscale := grayscale self;
     overlap_threshold := overlap_threshold self;
     search_region := search_region self;
     anchor_img := anchor_img self;
     anchor_config := anchor_config self;
     source_dpr := source_dpr self;
     source_resolution := source_resolution self;
     scaling_type := scaling_type self;
     ocr_lang := lang;
     ocr_mode := ocr_mode self;
     use_det := use_det self;
     text_rect := text_rect self;
     text_offsets := text_offsets self |}.

(** ** What every run delivers *)

(** A statement that does not leave the function with [return]. *)
Definition straight {A} (m : Py A) : Prop := snd m <> Return.

(** The only signal of the trace is one result, and the count it carries
    is the length of its match list. *)
Definition one_result (t : list event) : Prop :=
  exists rects anchors scanned,
    signals t
    = [result_signal rects anchors scanned (Z.of_nat (length rects))].

(** A body of the detection that has emitted nothing when it raises and
    one result otherwise. *)
Definition delivers (m : Py unit) : Prop :=
  match snd m with
  | Raise _ => signals (fst m) = []
  | _ => one_result (fst m)
  end.

(** The text every OCR call of the pipeline ends with (lines 145-146), given
    the parameters [get_text_from_image] declares. *)
Definition keyword_error : string :=
  "OCR Error: get_text_from_image() got an unexpected keyword argument 'mode'".

(** Every text signal of the trace carries the null image or the text
    [keyword_error]. *)
Definition texts_refused (t : list event) : Prop :=
  forall image text,
    text_signal image text ∈ t -> image = QImage_null \/ text = keyword_error.

(** ** Worlds that differ in one collaborator *)

(** The world in which [get_monitor_dpr] returns [dpr] for every monitor. *)
Definition with_monitor_dpr (dpr : option float) (w : World) : World :=
  {| get_monitors_safe := get_monitors_safe w;
     get_monitor_dpr := fun _ _ => Ok dpr;
     Session := Session w;
     locateAllOnScreen := locateAllOnScreen w;
     prepare_capture := prepare_capture w;
     cvtColor_BGRA2RGBA := cvtColor_BGRA2RGBA w;
     WINRT_AVAILABLE := WINRT_AVAILABLE w;
     execute_ocr := execute_ocr w |}.

(** The keys of the anchor configuration that lines 209-217 read with
    [anchor_config[key]]. *)
Definition required_keys : list string := ["offset_x"; "offset_y"; "w"; "h"].

(** The searches of a trace, in order. *)
Definition searches (t : list event) : list LocateArgs :=
  omap (fun ev => match ev with Locate args => Some args | _ => None end) t.


(** ** What [get_text_from_image] raises *)


(** ** What the overlay draws *)

(** The rectangles the painter was asked to draw, in order. *)
Definition boxes (l : list overlay.paint) : list Rect :=
  omap (fun p => match p with
                 | overlay.drawRect x y w h => Some (x, y, w, h)
                 | _ => None
                 end) l.

(** The centres of the ellipses the painter was asked to draw, in order. *)
Definition dots (l : list overlay.paint) : list Point :=
  omap (fun p => match p with
                 | overlay.drawEllipse center _ _ => Some center
                 | _ => None
                 end) l.

(** A rectangle of ints, as the widget receives it. *)
Definition int_rect (r : Rect) : overlay.NumRect :=
  let '(x, y, w, h) := r in (PyInt x, PyInt y, PyInt w, PyInt h).

(** The values of [f] on the items of a list, up to the first item on
    which [f] raises. *)
Fixpoint until_error {A B} (f : A -> result B) (l : list A) : list B :=
  match l with
  | [] => []
  | a :: l' =>
      match f a with
      | Ok b => b :: until_error f l'
      | Err _ => []
      end
  end.

(** A size that is a float but not a finite one. *)
Definition not_finite (n : number) : Prop :=
  exists f, n = PyFloat f /\
    (Prim2SF f = S754_nan \/ exists s, Prim2SF f = S754_infinity s).

(** * Concrete worlds and workers *)

(** The anchor configuration of the specification's example. *)
Definition example_anchor_config : gmap string Z :=
  {[ "offset_x" := 10; "offset_y" := 10; "w" := 100; "h" := 50;
     "margin_x" := 5; "margin_y" := 5 ]}.

(** One 1920x1080 monitor; the anchor image [ImageHandle 0] is found once,
    at [(200, 300, 30, 30)]; any other image is found once, at
    [(7, 8, 9, 10)]; every capture yields one BGRA pixel. *)
Definition example_world : World :=
  {| get_monitors_safe := Ok [(0, 0, 1920, 1080)];
     get_monitor_dpr := fun _ _ => Ok (Some 1%float);
     Session := fun _ _ _ => Ok tt;
     locateAllOnScreen := fun args =>
       match la_image args with
       | Some (ImageHandle 0) => Ok (PyList [(200, 300, 30, 30)])
       | _ => Ok (PyList [(7, 8, 9, 10)])
       end;
     prepare_capture := fun _ =>
       Ok (Some {| shape := [1; 1; 4]; data := [1; 2; 3; 4] |});
     cvtColor_BGRA2RGBA := fun a =>
       match data a with
       | [b; g; r; a'] => Ok {| shape := shape a; data := [r; g; b; a'] |}
       | _ => Ok a
       end;
     WINRT_AVAILABLE := true;
     execute_ocr := fun _ _ => Ok ["hello"] |}.

(** A worker with the template [ImageHandle 1], no search region and the
    fine-tuning offsets [(2, 3, 1, 4)]. *)
Definition example_worker (mode : string) (screen_idx : Z)
    (anchor_img : option Image) (anchor_config : option (gmap string Z))
    (source_dpr : option float) (source_resolution : option (Z * Z))
    (scaling_type : string) (text_rect : option Rect) : DetectionWorker :=
  {| mode := mode;
     template_img := Some (ImageHandle 1);
     screen_idx := screen_idx;
     confidence := 0.5;
     grayscale := true;
     overlap_threshold := 0.5;
     search_region := None;
     anchor_img := anchor_img;
     anchor_config := anchor_config;
     source_dpr := source_dpr;
     source_resolution := source_resolution;
     scaling_type := scaling_type;
     ocr_lang := "en-US";
     ocr_mode := "clean";
     use_det := false;
     text_rect := text_rect;
     text_offsets := Some (2, 3, 1, 4) |}.

(** A text request on a fixed region. *)
Definition static_text_worker : DetectionWorker :=
  example_worker "text" 0 None None (Some 1%float) None "dpr"
    (Some (10, 10, 20, 20)).

(** An image request with an anchor. *)
Definition anchored_worker : DetectionWorker :=
  example_worker "image" 0 (Some (ImageHandle 0)) (Some example_anchor_config)
    (Some 1%float) None "dpr" None.

(** An image request scaled by resolution, recorded at 1920x1080. *)
Definition resolution_worker : DetectionWorker :=
  example_worker "image" 0 None None (Some 1%float) (Some (1920, 1080))
    "resolution" None.

(** An image request in [dpr] mode whose source ratio is zero. *)
Definition zero_dpr_worker : DetectionWorker :=
  example_worker "image" 0 None None (Some 0%float) None "dpr" None.

(** An image request for a second monitor, which the world does not have. *)
Definition out_of_range_worker : DetectionWorker :=
  example_worker "image" 1 (Some (ImageHandle 0)) (Some example_anchor_config)
    (Some 1%float) None "dpr" None.

(** An anchor configuration of width 0, without margins. *)
Definition degenerate_anchor_config : gmap string Z :=
  {[ "offset_x" := 10; "offset_y" := 10; "w" := 0; "h" := 50 ]}.

(** An image request whose derived regions are degenerate. *)
Definition degenerate_worker : DetectionWorker :=
  example_worker "image" 0 (Some (ImageHandle 0))
    (Some degenerate_anchor_config) (Some 1%float) None "dpr" None.

(** A world whose searches find nothing. *)
Definition no_match_world : World :=
  {| get_monitors_safe := get_monitors_safe example_world;
     get_monitor_dpr := get_monitor_dpr example_world;
     Session := Session example_world;
     locateAllOnScreen := fun _ => Ok (PyList []);
     prepare_capture := prepare_capture example_world;
     cvtColor_BGRA2RGBA := cvtColor_BGRA2RGBA example_world;
     WINRT_AVAILABLE := WINRT_AVAILABLE example_world;
     execute_ocr := execute_ocr example_world |}.

(** A text request relative to an anchor. *)
Definition anchored_text_worker : DetectionWorker :=
  example_worker "text" 0 (Some (ImageHandle 0)) (Some example_anchor_config)
    (Some 1%float) None "dpr" (Some (10, 10, 20, 20)).

(** A text request for a second monitor, which the world does not have. *)
Definition out_of_range_text_worker : DetectionWorker :=
  example_worker "text" 1 None None (Some 1%float) None "dpr"
    (Some (10, 10, 20, 20)).

(** A text request on a fixed region whose fine-tuning offsets were left at
    their default. *)
Definition no_offsets_worker : DetectionWorker :=
  {| mode := "text";
     template_img := None;
     screen_idx := 0;
     confidence := 0.5;
     grayscale := true;
     overlap_threshold := 0.5;
     search_region := None;
     anchor_img := None;
     anchor_config := None;
     source_dpr := Some 1%float;
     source_resolution := None;
     scaling_type := "dpr";
     ocr_lang := "en-US";
     ocr_mode := "clean";
     use_det := false;
     text_rect := Some (10, 10, 20, 20);
     text_offsets := None |}.

(** An anchor configuration that lacks the size of the region. *)
Definition incomplete_anchor_config : gmap string Z :=
  {[ "offset_x" := 10; "offset_y" := 10 ]}.

(** An image request with that configuration. *)
Definition incomplete_worker : DetectionWorker :=
  example_worker "image" 0 (Some (ImageHandle 0))
    (Some incomplete_anchor_config) (Some 1%float) None "dpr" None.

(** An image request without anchor, recorded at 960x540, over the region
    [(10, 20, 30, 40)]. *)
Definition scaled_search_worker : DetectionWorker :=
  {| mode := "image";
     template_img := Some (ImageHandle 1);
     screen_idx := 0;
     confidence := 0.5;
     grayscale := true;
     overlap_threshold := 0.5;
     search_region := Some (10, 20, 30, 40);
     anchor_img := None;
     anchor_config := None;
     source_dpr := Some 1%float;
     source_resolution := Some (960, 540);
     scaling_type := "resolution";
     ocr_lang := "en-US";
     ocr_mode := "clean";
     use_det := false;
     text_rect := None;
     text_offsets := None |}.


(** Three recognizer languages. *)
Definition example_languages : list ocr.Language :=
  [ {| ocr.language_tag := "de-DE" |};
    {| ocr.language_tag := "en-US" |};
    {| ocr.language_tag := "en-GB" |} ].

(** The overlay as [__init__] leaves it: no offset, no click target, no
    rectangle. *)
Definition example_overlay : overlay.Overlay :=
  {| overlay.target_offset_x := PyInt 0;
     overlay.target_offset_y := PyInt 0;
     overlay.show_click := false;
     overlay.click_offset_x := PyInt 0;
     overlay.click_offset_y := PyInt 0;
     overlay.rects := [];
     overlay.scale_factor := 1 |}.

(** A rectangle of floats: (-0.7, 7.9, 2.5, 3.5). *)
Definition fractional_rect : overlay.NumRect :=
  (PyFloat (-0x1.6666666666666p-1), PyFloat 0x1.f99999999999ap+2,
   PyFloat 2.5, PyFloat 3.5).

(** A rectangle whose width is not a number. *)
Definition nan_rect : overlay.NumRect :=
  (PyInt 5, PyInt 6, PyFloat nan, PyInt 8).

(** The concrete world with a search that hands back a generator for every
    image but the anchor. *)
Definition generator_world : World :=
  {| get_monitors_safe := get_monitors_safe example_world;
     get_monitor_dpr := get_monitor_dpr example_world;
     Session := Session example_world;
     locateAllOnScreen := fun args =>
       match la_image args with
       | Some (ImageHandle 0) => Ok (PyList [(200, 300, 30, 30)])
       | _ => Ok (PyGenerator [(7, 8, 9, 10)])
       end;
     prepare_capture := prepare_capture example_world;
     cvtColor_BGRA2RGBA := cvtColor_BGRA2RGBA example_world;
     WINRT_AVAILABLE := WINRT_AVAILABLE example_world;
     execute_ocr := execute_ocr example_world |}.

(** A world in which the session cannot be built. *)
Definition no_display_world : World :=
  {| get_monitors_safe := get_monitors_safe example_world;
     get_monitor_dpr := get_monitor_dpr example_world;
     Session := fun _ _ _ => Err (OtherError "no display");
     locateAllOnScreen := locateAllOnScreen example_world;
     prepare_capture := prepare_capture example_world;
     cvtColor_BGRA2RGBA := cvtColor_BGRA2RGBA example_world;
     WINRT_AVAILABLE := WINRT_AVAILABLE example_world;
     execute_ocr := execute_ocr example_world |}.

(** A text request that sets neither an anchor nor a base rectangle. *)
Definition unconfigured_text_worker : DetectionWorker :=
  example_worker "text" 0 None None (Some 1%float) None "dpr" None.

(** A rectangle and an origin in float coordinates: x = 100.3 on a monitor
    whose origin is at 1920. *)
Definition float_rect : float * float * float * float :=
  (0x1.9133333333333p+6, 0, 10, 10)%float.

Definition float_origin : float * float := (1920, 0)%float.

(** * Properties *)

(** ** The statement monad *)

Lemma bind_ret {A B} (a : A) (k : A -> Py B) : bind (ret a) k = k a.
Proof. unfold bind, ret; simpl. by destruct (k a). Qed.

Lemma bind_lift_Ok {A B} (a : A) (k : A -> Py B) : bind (lift (Ok a)) k = k a.
Proof. apply bind_ret. Qed.

Lemma bind_lift_Err {A B} (e : exn) (k : A -> Py B) :
  bind (lift (Err e)) k = raise e.
Proof. reflexivity. Qed.

Lemma bind_emit {B} (ev : event) (k : unit -> Py B) :
  bind (emit ev) k = (ev :: fst (k tt), snd (k tt)).
Proof. reflexivity. Qed.

Lemma bind_assoc {A B C} (m : Py A) (k : A -> Py B) (k' : B -> Py C) :
  bind (bind m k) k' = bind m (fun a => bind (k a) k').
Proof.
  destruct m as [t [a | | e]]; unfold bind; simpl; try reflexivity.
  destruct (k a) as [t' [b | | e']]; simpl; try reflexivity.
  by rewrite app_assoc.
Qed.

(** Equality of tuples of integers, component by component. *)
Ltac rect_eq :=
  repeat match goal with |- (_, _) = (_, _) => f_equal end; try lia.

(** ** Coordinate transforms *)

(** C4, as the transforms are on the two kinds of coordinates.  On integer
    rectangles, translating [R] into the frame of [O] and back, in either
    order, gives [R] again.  On every kind of coordinate neither transform
    changes the width or the height.  On float rectangles each transform
    rounds once, so the round trip brings [x] back as [(x - ox) + ox], which
    need not be [x].  The transforms are total functions: they have no
    error case. *)
Theorem transforms_mutually_inverse :
  (forall (R : Rect) (O : Point),
     local_to_global (global_to_local R O) O = R /\
     global_to_local (local_to_global R O) O = R) /\
  (forall (A : Type) (N : Coordinate A) (R : A * A * A * A) (O : A * A),
     width (global_to_local R O) = width R /\
     height (global_to_local R O) = height R /\
     width (local_to_global R O) = width R /\
     height (local_to_global R O) = height R) /\
  (forall x y w h ox oy : float,
     local_to_global (global_to_local (x, y, w, h) (ox, oy)) (ox, oy)
     = ((x - ox) + ox, (y - oy) + oy, w, h)%float /\
     global_to_local (local_to_global (x, y, w, h) (ox, oy)) (ox, oy)
     = ((x + ox) - ox, (y + oy) - oy, w, h)%float).
Proof.
  split; [| split].
  - intros [[[x y] w] h] [ox oy].
    unfold global_to_local, local_to_global; simpl.
    split; rect_eq.
  - intros A N [[[x y] w] h] [ox oy]. by repeat split.
  - intros x y w h ox oy. by split.
Qed.

(** On floats the round trip is not exact: the rectangle at x = 100.3
    moved into the frame of a monitor at 1920 and back is at
    100.29999999999995, in either order of the two transforms. *)
Lemma float_round_trip_rounds :
  local_to_global (global_to_local float_rect float_origin) float_origin
  = (0x1.913333333333p+6, 0, 10, 10)%float /\
  global_to_local (local_to_global float_rect float_origin) float_origin
  = (0x1.913333333333p+6, 0, 10, 10)%float /\
  PrimFloat.eqb 0x1.913333333333p+6 float_rect.1.1.1 = false.
Proof. repeat split. Qed.

(** ** The derived region *)

Lemma derived_region_formula_aux (cfg : gmap string Z)
    (ax ay aw ah ox oy cw ch : Z) :
  cfg !! "offset_x" = Some ox ->
  cfg !! "offset_y" = Some oy ->
  cfg !! "w" = Some cw ->
  cfg !! "h" = Some ch ->
  derive_region cfg (dict_get cfg "margin_x" 0) (dict_get cfg "margin_y" 0)
    (ax, ay, aw, ah)
  = ret (ax + ox - dict_get cfg "margin_x" 0,
         ay + oy - dict_get cfg "margin_y" 0,
         cw + 2 * dict_get cfg "margin_x" 0,
         ch + 2 * dict_get cfg "margin_y" 0).
Proof.
  intros Hox Hoy Hw Hh.
  unfold derive_region, dict_getitem, global_to_local, local_to_global.
  rewrite Hox, Hoy, Hw, Hh; simpl.
  rewrite !bind_ret. unfold ret. do 2 f_equal.
  rect_eq.
Qed.

(** C3.  For an anchor match [(ax, ay, aw, ah)] and an anchor configuration
    with offset [(ox, oy)], size [(cw, ch)] and margins [(mx, my)] (a margin
    missing from the configuration counts as 0), the region the detection
    pipeline derives is
    [(ax + ox - mx, ay + oy - my, cw + 2 * mx, ch + 2 * my)]. *)
Theorem derived_region_formula (cfg : gmap string Z)
    (ax ay aw ah ox oy cw ch mx my : Z) :
  cfg !! "offset_x" = Some ox ->
  cfg !! "offset_y" = Some oy ->
  cfg !! "w" = Some cw ->
  cfg !! "h" = Some ch ->
  dict_get cfg "margin_x" 0 = mx ->
  dict_get cfg "margin_y" 0 = my ->
  derive_region cfg (dict_get cfg "margin_x" 0) (dict_get cfg "margin_y" 0)
    (ax, ay, aw, ah)
  = ret (ax + ox - mx, ay + oy - my, cw + 2 * mx, ch + 2 * my).
Proof.
  intros Hox Hoy Hw Hh <- <-. by apply derived_region_formula_aux.
Qed.

Lemma derived_region_formula_witness :
  derive_region example_anchor_config 5 5 (200, 300, 30, 30)
  = ret (205, 305, 110, 60).
Proof.
  exact (derived_region_formula example_anchor_config 200 300 30 30
           10 10 100 50 5 5 eq_refl eq_refl eq_refl eq_refl eq_refl eq_refl).
Defined.

(** ** The scale factors *)

Lemma truediv_nonzero (a b : float) :
  PrimFloat.eqb b 0 = false -> truediv a b = Ok (a / b)%float.
Proof. intros H. unfold truediv. by rewrite H. Qed.

Lemma int_truediv_exact (a b : Z) :
  b <> 0 -> Z.abs a < 2 ^ 53 -> Z.abs b < 2 ^ 53 ->
  int_truediv a b = Ok (float_of_int a / float_of_int b)%float.
Proof.
  intros Hb Ha Hb'. unfold int_truediv.
  destruct (Z.eqb_spec b 0) as [-> | _]; [done |].
  destruct (Z.ltb_spec (Z.abs a) (2 ^ 53)); [| lia].
  destruct (Z.ltb_spec (Z.abs b) (2 ^ 53)); [| lia].
  reflexivity.
Qed.

(** Beyond 2^53 the quotient of the integers is rounded, not the quotient
    of the rounded operands; a quotient too large for a float raises, and
    large operands with a small quotient do not. *)
Example int_truediv_rounds_the_quotient :
  int_truediv (2 ^ 54 + 2) 3 = Ok 6004799503160662%float /\
  int_truediv (10 ^ 400) (10 ^ 399) = Ok 10%float /\
  int_truediv (10 ^ 400) 1920
  = Err (OverflowError "integer division result too large for a float").
Proof. repeat split; vm_compute; reflexivity. Qed.

(** The computation of the scale factors makes no call and emits nothing;
    it gives the pair or raises.  The divisions by zero are guarded, so
    what it can raise is the [OverflowError] of a quotient of sizes. *)
Lemma scale_xy_silent (self : DetectionWorker) (target_dpr : option float)
    (selected_screen : Rect) :
  (exists scale, scale_xy self target_dpr selected_screen = ret scale) \/
  (exists msg,
     scale_xy self target_dpr selected_screen = raise (OverflowError msg)).
Proof.
  unfold scale_xy.
  destruct (String.eqb (scaling_type self) "dpr").
  - left. destruct (source_dpr self) as [s |], target_dpr as [t |]; simpl; eauto.
    + destruct (PrimFloat.eqb s 0) eqn:Hs, (PrimFloat.eqb t 0) eqn:Ht;
        simpl; eauto.
      rewrite (truediv_nonzero t s Hs), bind_lift_Ok. eauto.
    + destruct (PrimFloat.eqb s 0); simpl; eauto.
  - destruct (String.eqb (scaling_type self) "resolution"); eauto.
    destruct (source_resolution self) as [[sr_w sr_h] |]; eauto.
    destruct selected_screen as [[[x y] tr_w] tr_h].
    destruct (Z.ltb_spec 0 sr_w), (Z.ltb_spec 0 sr_h); simpl; eauto.
    assert (forall a b, 0 < b ->
              (exists q, int_truediv a b = Ok q) \/
              (exists msg, int_truediv a b = Err (OverflowError msg))) as Hdiv.
    { intros a b Hb. unfold int_truediv.
      destruct (Z.eqb_spec b 0); [lia |].
      destruct (_ && _); [eauto |].
      destruct (rounded_quotient a b); eauto. }
    destruct (Hdiv tr_w sr_w) as [[qx ->] | [msg ->]]; [done | | eauto].
    rewrite bind_lift_Ok.
    destruct (Hdiv tr_h sr_h) as [[qy ->] | [msg ->]]; [done | | eauto].
    rewrite bind_lift_Ok. eauto.
Qed.

(** C5.  In [dpr] mode both factors are [target_dpr / source_dpr] when both
    ratios are present and nonzero, and 1.0 when either is missing or zero.
    In [resolution] mode the factors are [target_w / source_w] and
    [target_h / source_h] when the source resolution is present with both
    components positive, and 1.0 otherwise.  In every case the pair is
    defined: the computation raises nothing.  The sizes are those of
    monitors: integers below 2^53 in magnitude, which convert to floats
    without rounding. *)
Theorem scale_factors (self : DetectionWorker) (target_dpr : option float)
    (x y target_w target_h : Z) :
  (scaling_type self = "dpr" ->
     (forall s t, source_dpr self = Some s -> target_dpr = Some t ->
        PrimFloat.eqb s 0 = false -> PrimFloat.eqb t 0 = false ->
        scale_xy self target_dpr (x, y, target_w, target_h)
        = ret ((t / s)%float, (t / s)%float)) /\
     (truthy_float (source_dpr self) = false \/ truthy_float target_dpr = false ->
        scale_xy self target_dpr (x, y, target_w, target_h)
        = ret (1%float, 1%float))) /\
  (scaling_type self = "resolution" ->
     (forall source_w source_h, source_resolution self = Some (source_w, source_h) ->
        0 < source_w -> 0 < source_h ->
        screen_sizes self target_w target_h ->
        int_truediv target_w source_w
        = Ok (float_of_int target_w / float_of_int source_w)%float /\
        int_truediv target_h source_h
        = Ok (float_of_int target_h / float_of_int source_h)%float /\
        scale_xy self target_dpr (x, y, target_w, target_h)
        = ret ((float_of_int target_w / float_of_int source_w)%float,
               (float_of_int target_h / float_of_int source_h)%float)) /\
     (source_resolution self = None \/
      (exists source_w source_h, source_resolution self = Some (source_w, source_h) /\
         (source_w <= 0 \/ source_h <= 0)) ->
        scale_xy self target_dpr (x, y, target_w, target_h)
        = ret (1%float, 1%float))) /\
  (screen_sizes self target_w target_h ->
   exists scale_x scale_y,
     scale_xy self target_dpr (x, y, target_w, target_h) = ret (scale_x, scale_y)).
Proof.
  assert (scaling_type self = "resolution" ->
          forall sw sh, source_resolution self = Some (sw, sh) ->
            0 < sw -> 0 < sh -> screen_sizes self target_w target_h ->
            int_truediv target_w sw
            = Ok (float_of_int target_w / float_of_int sw)%float /\
            int_truediv target_h sh
            = Ok (float_of_int target_h / float_of_int sh)%float /\
            scale_xy self target_dpr (x, y, target_w, target_h)
            = ret ((float_of_int target_w / float_of_int sw)%float,
                   (float_of_int target_h / float_of_int sh)%float)) as Hres.
  { intros Hmode sw sh Hsr Hw Hh (Htw & Hth & Hsource). rewrite Hsr in Hsource.
    destruct Hsource as [Hsw Hsh]. unfold exact_size in *.
    assert (int_truediv target_w sw
            = Ok (float_of_int target_w / float_of_int sw)%float) as Hx
      by (apply int_truediv_exact; lia).
    assert (int_truediv target_h sh
            = Ok (float_of_int target_h / float_of_int sh)%float) as Hy
      by (apply int_truediv_exact; lia).
    split; [done |]. split; [done |].
    unfold scale_xy. rewrite Hmode, Hsr. simpl.
    destruct (Z.ltb_spec 0 sw), (Z.ltb_spec 0 sh); try lia. simpl.
    by rewrite Hx, Hy, !bind_lift_Ok. }
  split; [| split].
  - intros Hmode. unfold scale_xy. rewrite Hmode. simpl. split.
    + intros s t -> -> Hs Ht. simpl. rewrite Hs, Ht. simpl.
      by rewrite (truediv_nonzero t s Hs), bind_lift_Ok.
    + intros [H | H]; rewrite H; [done |].
      by rewrite andb_false_r.
  - intros Hmode. split; [by apply Hres |].
    unfold scale_xy. rewrite Hmode. simpl.
    intros [-> | (sw & sh & -> & Hneg)]; [done |].
    destruct (Z.ltb_spec 0 sw), (Z.ltb_spec 0 sh); simpl; try done; lia.
  - intros Hsizes.
    destruct (String.eqb_spec (scaling_type self) "resolution") as [Hmode | Hmode].
    + destruct (source_resolution self) as [[sw sh] |] eqn:Hsr.
      * destruct (Z.ltb_spec 0 sw) as [Hw | Hw], (Z.ltb_spec 0 sh) as [Hh | Hh].
        { destruct (Hres Hmode sw sh eq_refl Hw Hh Hsizes) as (_ & _ & ->). eauto. }
        all: unfold scale_xy; rewrite Hmode, Hsr; simpl;
          destruct (Z.ltb_spec 0 sw), (Z.ltb_spec 0 sh); simpl; try lia; eauto.
      * unfold scale_xy. rewrite Hmode, Hsr. simpl. eauto.
    + destruct (scale_xy_silent self target_dpr (x, y, target_w, target_h))
        as [[[sx sy] H] | [msg H]]; [eauto |].
      exfalso. revert H. unfold scale_xy.
      destruct (String.eqb (scaling_type self) "dpr").
      * destruct (source_dpr self) as [s |], target_dpr as [t |]; simpl;
          try discriminate.
        -- destruct (PrimFloat.eqb s 0) eqn:Hs, (PrimFloat.eqb t 0) eqn:Ht;
             simpl; try discriminate.
           by rewrite (truediv_nonzero t s Hs), bind_lift_Ok.
        -- destruct (PrimFloat.eqb s 0); simpl; discriminate.
      * destruct (String.eqb_spec (scaling_type self) "resolution");
          [done | discriminate].
Qed.

(** ** Region capture: reaching the region resolution *)

Lemma run_text_extraction_setup (w : World) (self : DetectionWorker)
    (selected_screen : Rect) :
  text_setup w self selected_screen ->
  run_text_extraction w self
  = try_except (final_region <- resolve_region w self ;;
                after_region w self final_region) text_handler.
Proof.
  intros (HS & monitors & Hm & Hlt & Hget).
  unfold run_text_extraction. rewrite HS, Hm, !bind_lift_Ok.
  apply Z.ltb_lt in Hlt. rewrite Hlt, Hget, bind_lift_Ok.
  reflexivity.
Qed.

Lemma try_except_trace (body : Py unit) (handler : exn -> Py unit) :
  exists rest, fst (try_except body handler) = fst body ++ rest.
Proof.
  unfold try_except. destruct body as [t [[] | | e]]; simpl; eauto.
  all: exists []; by rewrite app_nil_r.
Qed.

Lemma capture_and_read_trace (w : World) (self : DetectionWorker) (r : Rect) :
  exists rest, fst (capture_and_read w self r) = Capture r :: rest.
Proof.
  unfold capture_and_read, capture. rewrite bind_assoc, bind_emit.
  simpl. eauto.
Qed.

(** C8.  When the region resolves to [(x, y, w, h)] and the fine-tuning
    offsets are [(top, bottom, left, right)], the region handed to the
    capture primitive is
    [(x - left, y - top, w + left + right, h + top + bottom)]: the capture
    call follows the events of the region resolution in the trace. *)
Theorem fine_tuned_capture_region (w : World) (self : DetectionWorker)
    (selected_screen : Rect) (x y rw rh top bottom left_ right_ : Z) :
  text_setup w self selected_screen ->
  snd (resolve_region w self) = Normal (Some (x, y, rw, rh)) ->
  text_offsets self = Some (top, bottom, left_, right_) ->
  capture_region (x, y, rw, rh) (top, bottom, left_, right_)
  = (x - left_, y - top, rw + left_ + right_, rh + top + bottom) /\
  exists rest,
    trace (run_text_extraction w self)
    = fst (resolve_region w self)
      ++ Capture (x - left_, y - top, rw + left_ + right_, rh + top + bottom)
      :: rest.
Proof.
  intros Hsetup Hres Hoff. split; [reflexivity |].
  rewrite (run_text_extraction_setup _ _ _ Hsetup). unfold trace.
  destruct (try_except_trace
              (final_region <- resolve_region w self ;;
               after_region w self final_region) text_handler) as [rest ->].
  unfold bind at 1. rewrite Hres. simpl. rewrite Hoff. simpl.
  destruct (capture_and_read_trace w self
              (x - left_, y - top, rw + left_ + right_, rh + top + bottom))
    as [rest' ->].
  exists (rest' ++ rest). by rewrite <- app_assoc.
Qed.

(** ** The capture region and the scale factors on the concrete world *)

Lemma example_text_setup (self : DetectionWorker) :
  screen_idx self = 0 -> text_setup example_world self (0, 0, 1920, 1080).
Proof.
  intros H. split; [reflexivity |].
  exists [(0, 0, 1920, 1080)]. rewrite H. repeat split.
Defined.

Lemma fine_tuned_capture_region_witness :
  capture_region (10, 10, 20, 20) (2, 3, 1, 4) = (9, 8, 25, 25) /\
  exists rest,
    trace (run_text_extraction example_world static_text_worker)
    = Capture (9, 8, 25, 25) :: rest.
Proof.
  exact (fine_tuned_capture_region example_world static_text_worker
           (0, 0, 1920, 1080) 10 10 20 20 2 3 1 4
           (example_text_setup static_text_worker eq_refl) eq_refl eq_refl).
Defined.

Lemma scale_factors_witness :
  scale_xy resolution_worker (Some 1%float) (0, 0, 3840, 2160)
  = ret (2%float, 2%float) /\
  scale_xy zero_dpr_worker (Some 1%float) (0, 0, 3840, 2160)
  = ret (1%float, 1%float).
Proof.
  assert (screen_sizes resolution_worker 3840 2160) as Hsizes
    by (repeat split; reflexivity).
  split.
  - exact (proj2 (proj2 (proj1 (proj1 (proj2 (scale_factors resolution_worker
             (Some 1%float) 0 0 3840 2160)) eq_refl)
             1920 1080 eq_refl eq_refl eq_refl Hsizes))).
  - exact (proj2 (proj1 (scale_factors zero_dpr_worker
             (Some 1%float) 0 0 3840 2160) eq_refl) (or_introl eq_refl)).
Defined.

(** ** Invariants of the statements of a run *)

Lemma signals_app (t1 t2 : list event) :
  signals (t1 ++ t2) = signals t1 ++ signals t2.
Proof. apply List.filter_app. Qed.

Section Invariants.
Context (w : World).

Lemma tame_guarded {A} (m : Py A) : tame w m -> guarded w m.
Proof. intros [Hs Hl]. split; auto. Qed.

Lemma tame_nil {A} (o : outcome A) : tame w (([], o) : Py A).
Proof. split; [done |]. intros args e H. by apply elem_of_nil in H. Qed.

Lemma tame_ret {A} (a : A) : tame w (ret a).
Proof. apply tame_nil. Qed.

Lemma tame_raise {A} (e : exn) : tame w (@raise A e).
Proof. apply tame_nil. Qed.

Lemma tame_lift {A} (r : result A) : tame w (lift r).
Proof. destruct r; apply tame_nil. Qed.

Lemma tame_locate (args : LocateArgs) : tame w (locate w args).
Proof.
  unfold locate. rewrite bind_emit.
  destruct (locateAllOnScreen w args) as [it | e0] eqn:Hargs; simpl.
  - split; [done |]. intros args' e H He.
    apply list_elem_of_singleton in H. congruence.
  - split; [done |]. eauto.
Qed.

Lemma tame_bind {A B} (m : Py A) (k : A -> Py B) :
  tame w m -> (forall a, tame w (k a)) -> tame w (bind m k).
Proof.
  intros [Hs Hl] Hk. unfold bind.
  destruct m as [t [a | | e]]; cbn [fst snd] in *;
    [| split; cbn [fst snd];
       [intros; assumption |
        intros args e0 H He; destruct (Hl args e0 H He) as [e' He'];
        first [discriminate | by eauto]] ..].
  destruct (Hk a) as [Hs' Hl']. split; cbn [fst snd].
  - by rewrite signals_app, Hs, Hs'.
  - intros args e H He. apply elem_of_app in H as [H | H]; [| eauto].
    destruct (Hl args e H He) as [e' He']. discriminate.
Qed.

Lemma guarded_bind {A B} (m : Py A) (k : A -> Py B) :
  tame w m -> (forall a, guarded w (k a)) -> guarded w (bind m k).
Proof.
  intros [Hs Hl] Hk. unfold bind.
  destruct m as [t [a | | e]]; cbn [fst snd] in *;
    [| split; cbn [fst snd];
       [intros; assumption |
        intros args e0 H He; destruct (Hl args e0 H He) as [e' He'];
        first [discriminate | by eauto]] ..].
  destruct (Hk a) as [Hs' Hl']. split; cbn [fst snd].
  - intros e He. rewrite signals_app, Hs. simpl. eauto.
  - intros args e H He. apply elem_of_app in H as [H | H]; [| eauto].
    destruct (Hl args e H He) as [e' He']. discriminate.
Qed.

Lemma tame_for_each {A S} (l : list A) (body : A -> S -> Py S) (s : S) :
  (forall a s', tame w (body a s')) -> tame w (for_each l body s).
Proof.
  intros Hbody. revert s.
  induction l as [| a l IH]; intros s; simpl.
  - apply tame_ret.
  - apply tame_bind; auto.
Qed.

Lemma guarded_emit (ev : event) : is_signal ev = true -> guarded w (emit ev).
Proof.
  intros Hev. split; [intros e He; discriminate He |].
  intros args e H _. simpl in H.
  apply list_elem_of_singleton in H. subst ev. discriminate Hev.
Qed.

Lemma guarded_emit_return (ev : event) :
  is_signal ev = true -> guarded w (emit ev ;; @return_ unit).
Proof.
  intros Hev. split; [intros e He; discriminate He |].
  intros args e H _. simpl in H.
  apply list_elem_of_singleton in H. subst ev. discriminate Hev.
Qed.
End Invariants.

Ltac tame_step :=
  match goal with
  | |- tame _ (ret _) => apply tame_ret
  | |- tame _ (raise _) => apply tame_raise
  | |- tame _ (lift _) => apply tame_lift
  | |- tame _ (locate _ _) => apply tame_locate
  | |- tame _ (scale_xy ?s ?t ?r) =>
      let H := fresh in
      destruct (scale_xy_silent s t r) as [[? H] | [? H]]; rewrite H;
      [apply tame_ret | apply tame_raise]
  | |- tame _ (bind _ _) => apply tame_bind; [| intros ?]
  | |- tame _ (for_each _ _ _) => apply tame_for_each; intros ? ?
  | |- tame _ (match ?x with _ => _ end) => destruct x
  end.

Ltac guarded_step :=
  match goal with
  | |- guarded _ (emit _ ;; return_) => by apply guarded_emit_return
  | |- guarded _ (emit _) => by apply guarded_emit
  | |- guarded _ (raise _) => apply tame_guarded, tame_raise
  | |- guarded _ (bind _ _) => apply guarded_bind; [repeat tame_step | intros ?]
  | |- guarded _ (match ?x with _ => _ end) => destruct x
  end.

(** ** Image detection: the loop over the anchors *)

Lemma derive_region_tame (w : World) (cfg : gmap string Z) (mx my : Z)
    (anchor : Rect) : tame w (derive_region cfg mx my anchor).
Proof.
  unfold derive_region. destruct anchor as [[[ax ay] aw] ah].
  repeat tame_step.
Qed.

Lemma anchor_body_tame (w : World) (self : DetectionWorker)
    (cfg : gmap string Z) (mx my : Z) (screen anchor : Rect)
    (st : list Rect * list Rect) :
  tame w (anchor_body w self cfg mx my screen anchor st).
Proof.
  unfold anchor_body. destruct st as [final_rects scanned_regions].
  apply tame_bind; [apply derive_region_tame |].
  intros [[[region_x region_y] region_w] region_h].
  repeat tame_step.
Qed.

Lemma direct_scan_guarded (w : World) (self : DetectionWorker)
    (scale_x scale_y : float) (found_anchors scanned_regions : list Rect) :
  guarded w (direct_scan w self scale_x scale_y found_anchors scanned_regions).
Proof.
  unfold direct_scan. repeat guarded_step.
Qed.

Lemma try_except_guarded (w : World) (body : Py unit) :
  guarded w body ->
  forall m, m = try_except body (fun _ => emit empty_result) ->
  (forall e, snd m <> Raise e) /\
  (forall e, snd body = Raise e -> signals (fst m) = [empty_result]) /\
  (forall args e, Locate args ∈ fst m -> locateAllOnScreen w args = Err e ->
                  signals (fst m) = [empty_result]).
Proof.
  intros [Hs Hl] m ->. unfold try_except.
  destruct body as [t [[] | | e]]; cbn [fst snd] in *.
  - repeat split; try discriminate.
    intros args e H He. destruct (Hl args e H He) as [e' He']. discriminate.
  - repeat split; try discriminate.
    intros args e H He. destruct (Hl args e H He) as [e' He']. discriminate.
  - assert (signals (t ++ [empty_result]) = [empty_result]) as Hsig.
    { rewrite signals_app, (Hs e eq_refl). reflexivity. }
    repeat split; auto.
Qed.

(** ** Image detection: the empty result *)

Lemma locate_Ok (w : World) (args : LocateArgs) (it : pyiter) :
  locateAllOnScreen w args = Ok it -> locate w args = ([Locate args], Normal it).
Proof. intros H. unfold locate. by rewrite bind_emit, H. Qed.

Lemma locate_Err (w : World) (args : LocateArgs) (e : exn) :
  locateAllOnScreen w args = Err e -> locate w args = ([Locate args], Raise e).
Proof. intros H. unfold locate. by rewrite bind_emit, H. Qed.

Lemma bind_locate_Ok {B} (w : World) (args : LocateArgs) (it : pyiter)
    (k : pyiter -> Py B) :
  locateAllOnScreen w args = Ok it ->
  bind (locate w args) k = (Locate args :: fst (k it), snd (k it)).
Proof. intros H. by rewrite (locate_Ok _ _ _ H). Qed.

(** A search that raised during a run leaves the empty result as the only
    signal, and the run itself raises nothing. *)
Lemma run_image_detection_guarded (w : World) (self : DetectionWorker) :
  (forall e, snd (run_image_detection w self) <> Raise e) /\
  (forall args e,
     Locate args ∈ trace (run_image_detection w self) ->
     locateAllOnScreen w args = Err e ->
     signals (trace (run_image_detection w self)) = [empty_result]).
Proof.
  unfold run_image_detection, trace.
  match goal with |- context [try_except ?b _] =>
    assert (guarded w b) as Hg end.
  { apply guarded_bind; [repeat tame_step | intros monitors].
    apply guarded_bind; [repeat tame_step | intros _].
    destruct (screen_idx self <? Z.of_nat (length monitors)).
    - apply guarded_bind; [repeat tame_step | intros selected_screen].
      apply guarded_bind; [repeat tame_step | intros target_dpr].
      apply guarded_bind; [repeat tame_step | intros scale].
      destruct (truthy (anchor_img self) && truthy_dict (anchor_config self)).
      + apply guarded_bind; [repeat tame_step | intros anchors_iter].
        destruct (anchor_config self) as [cfg |]; [| repeat guarded_step].
        apply guarded_bind; [| intros st; by apply guarded_emit].
        apply tame_for_each. intros a s'. apply anchor_body_tame.
      + apply direct_scan_guarded.
    - split; [intros e He; discriminate He |].
      intros args e H _. simpl in H.
      apply list_elem_of_singleton in H. discriminate H. }
  destruct (try_except_guarded w _ Hg _ eq_refl) as (H1 & _ & H3).
  split; assumption.
Qed.

(** C7.  The detection emits exactly the empty result [([], [], [], 0)]
    when the anchor search finds no anchor, when the monitor index is not
    below the number of monitors, and when a search of the run raises; and
    no run of the detection raises. *)
Theorem detection_empty_result (w : World) (self : DetectionWorker) :
  (truthy (anchor_img self) && truthy_dict (anchor_config self) = true ->
   forall anchors_iter,
     locateAllOnScreen w (anchor_args self) = Ok anchors_iter ->
     (iterate anchors_iter).1 = [] ->
     signals (trace (run_image_detection w self)) = [result_signal [] [] [] 0]) /\
  (forall monitors,
     get_monitors_safe w = Ok monitors ->
     Z.of_nat (length monitors) <= screen_idx self ->
     signals (trace (run_image_detection w self)) = [result_signal [] [] [] 0]) /\
  (forall args e,
     Locate args ∈ trace (run_image_detection w self) ->
     locateAllOnScreen w args = Err e ->
     signals (trace (run_image_detection w self)) = [result_signal [] [] [] 0]) /\
  (forall e, snd (run_image_detection w self) <> Raise e).
Proof.
  split; [| split; [| split]].
  - intros Hanchor it Hloc Hnone. unfold run_image_detection, trace.
    destruct (get_monitors_safe w) as [monitors | e]; [| reflexivity].
    rewrite bind_lift_Ok.
    destruct (Session w _ _ _) as [[] | e]; [| reflexivity].
    rewrite bind_lift_Ok.
    destruct (screen_idx self <? Z.of_nat (length monitors)); [| reflexivity].
    destruct (getitem monitors (screen_idx self)) as [screen | e];
      [| reflexivity].
    rewrite bind_lift_Ok.
    destruct (get_monitor_dpr w _ _) as [target_dpr | e]; [| reflexivity].
    rewrite bind_lift_Ok.
    destruct (scale_xy_silent self target_dpr screen)
      as [[scale ->] | [msg ->]]; [| reflexivity].
    rewrite bind_ret, Hanchor, (bind_locate_Ok _ _ _ _ Hloc), Hnone.
    destruct (anchor_config self) as [cfg |]; reflexivity.
  - intros monitors Hm Hge. unfold run_image_detection, trace.
    rewrite Hm, bind_lift_Ok. apply Z.ltb_ge in Hge. rewrite Hge.
    destruct (Session w _ _ _) as [[] | e]; reflexivity.
  - apply run_image_detection_guarded.
  - apply run_image_detection_guarded.
Qed.

Lemma detection_empty_result_witness :
  signals (trace (run_image_detection example_world out_of_range_worker))
  = [result_signal [] [] [] 0].
Proof.
  exact (proj1 (proj2 (detection_empty_result example_world out_of_range_worker))
           [(0, 0, 1920, 1080)] eq_refl (Z.le_refl 1)).
Defined.

(** ** Image detection with an anchor *)

Lemma both_passes_list (l : list Rect) : both_passes (PyList l) = l ++ l.
Proof. reflexivity. Qed.

Lemma both_passes_generator (l : list Rect) : both_passes (PyGenerator l) = l.
Proof. unfold both_passes. simpl. apply app_nil_r. Qed.

Lemma flat_map_both_passes_generator {A} (matches : A -> list Rect)
    (l : list A) :
  flat_map (fun a => both_passes (PyGenerator (matches a))) l
  = flat_map matches l.
Proof.
  induction l as [| a l IH]; [reflexivity |].
  cbn [flat_map]. by rewrite IH, both_passes_generator.
Qed.

Section Anchored.
Context (w : World) (self : DetectionWorker) (cfg : gmap string Z).
Context (selected_screen : Rect) (ox oy cw ch mx my : Z).
Hypothesis Hox : cfg !! "offset_x" = Some ox.
Hypothesis Hoy : cfg !! "offset_y" = Some oy.
Hypothesis Hcw : cfg !! "w" = Some cw.
Hypothesis Hch : cfg !! "h" = Some ch.
Hypothesis Hmx : dict_get cfg "margin_x" 0 = mx.
Hypothesis Hmy : dict_get cfg "margin_y" 0 = my.

Lemma derive_region_of (anchor : Rect) :
  derive_region cfg mx my anchor = ret (region_of ox oy cw ch mx my anchor).
Proof.
  destruct anchor as [[[ax ay] aw] ah]. subst mx my.
  by apply derived_region_formula_aux.
Qed.

Lemma anchor_body_skip (anchor : Rect) (st : list Rect * list Rect) :
  cw + 2 * mx <= 0 \/ ch + 2 * my <= 0 ->
  anchor_body w self cfg mx my selected_screen anchor st = ret st.
Proof.
  intros Hdeg. unfold anchor_body. destruct st as [final_rects scanned].
  rewrite derive_region_of, bind_ret.
  destruct anchor as [[[ax ay] aw] ah]. simpl.
  destruct (Z.leb_spec (cw + 2 * mx) 0), (Z.leb_spec (ch + 2 * my) 0);
    simpl; try reflexivity; lia.
Qed.

Lemma anchor_body_scan (anchor : Rect) (final_rects scanned : list Rect)
    (targets : pyiter) :
  0 < cw + 2 * mx -> 0 < ch + 2 * my ->
  locateAllOnScreen w
    (nested_args self selected_screen (region_of ox oy cw ch mx my anchor))
  = Ok targets ->
  anchor_body w self cfg mx my selected_screen anchor (final_rects, scanned)
  = ([Locate (nested_args self selected_screen
                (region_of ox oy cw ch mx my anchor))],
     Normal (final_rects ++ both_passes targets,
             scanned ++ [region_of ox oy cw ch mx my anchor])).
Proof.
  intros Hw Hh Hscan. unfold anchor_body.
  rewrite derive_region_of, bind_ret.
  destruct anchor as [[[ax ay] aw] ah].
  destruct selected_screen as [[[sx sy] sw] sh]. simpl in *.
  destruct (Z.leb_spec (cw + 2 * mx) 0), (Z.leb_spec (ch + 2 * my) 0);
    try lia. simpl.
  rewrite (bind_locate_Ok _ _ _ _ Hscan). simpl.
  unfold both_passes. by rewrite app_assoc.
Qed.

Lemma anchors_loop_skip (anchors : list Rect) (st : list Rect * list Rect) :
  cw + 2 * mx <= 0 \/ ch + 2 * my <= 0 ->
  for_each anchors (anchor_body w self cfg mx my selected_screen) st = ret st.
Proof.
  intros Hdeg. induction anchors as [| a anchors IH]; simpl; [reflexivity |].
  by rewrite anchor_body_skip, bind_ret.
Qed.

Lemma anchors_loop_scan (scan : Rect -> pyiter) (anchors : list Rect)
    (final_rects scanned : list Rect) :
  0 < cw + 2 * mx -> 0 < ch + 2 * my ->
  (forall a, a ∈ anchors ->
     locateAllOnScreen w
       (nested_args self selected_screen (region_of ox oy cw ch mx my a))
     = Ok (scan a)) ->
  for_each anchors (anchor_body w self cfg mx my selected_screen)
    (final_rects, scanned)
  = ((fun a => Locate (nested_args self selected_screen
                         (region_of ox oy cw ch mx my a))) <$> anchors,
     Normal (final_rects ++ flat_map (fun a => both_passes (scan a)) anchors,
             scanned ++ (region_of ox oy cw ch mx my <$> anchors))).
Proof.
  intros Hw Hh. revert final_rects scanned.
  induction anchors as [| a anchors IH]; intros final_rects scanned Hscan.
  - simpl. by rewrite !app_nil_r.
  - cbn [for_each flat_map fmap list_fmap].
    rewrite (anchor_body_scan a _ _ (scan a)); auto.
    2: { apply Hscan. by left. }
    unfold bind at 1. cbn [fst snd]. rewrite IH.
    2: { intros a' Ha'. apply Hscan. by right. }
    cbn [fst snd]. by rewrite <- !app_assoc.
Qed.
End Anchored.

Lemma truthy_dict_lookup (cfg : gmap string Z) (key : string) (v : Z) :
  cfg !! key = Some v -> truthy_dict (Some cfg) = true.
Proof.
  intros H. simpl. apply bool_decide_eq_true. intros ->.
  by rewrite lookup_empty in H.
Qed.

Lemma signals_locate_fmap {A} (f : A -> LocateArgs) (l : list A) :
  signals ((fun a => Locate (f a)) <$> l) = [].
Proof. induction l; [reflexivity | assumption]. Qed.

(** The run with an anchor, once the loop over the anchors is known. *)
Lemma run_image_detection_anchored (w : World) (self : DetectionWorker)
    (cfg : gmap string Z) (selected_screen : Rect) (anchors_iter : pyiter)
    (t : list event) (final_rects scanned : list Rect) :
  image_setup w self selected_screen ->
  truthy (anchor_img self) = true ->
  anchor_config self = Some cfg ->
  truthy_dict (Some cfg) = true ->
  locateAllOnScreen w (anchor_args self) = Ok anchors_iter ->
  for_each (iterate anchors_iter).1
    (anchor_body w self cfg (dict_get cfg "margin_x" 0)
       (dict_get cfg "margin_y" 0) selected_screen) ([], [])
  = (t, Normal (final_rects, scanned)) ->
  run_image_detection w self
  = (Locate (anchor_args self)
       :: t ++ [result_signal final_rects (iterate anchors_iter).1 scanned
                  (Z.of_nat (length final_rects))],
     Normal tt).
Proof.
  intros (monitors & target_dpr & scale & Hm & HS & Hlt & Hget & Hdpr & Hscale)
         Himg Hcfg Hne Hloc Hloop.
  unfold run_image_detection.
  rewrite Hm, bind_lift_Ok, HS, bind_lift_Ok.
  apply Z.ltb_lt in Hlt. rewrite Hlt, Hget, bind_lift_Ok, Hdpr, bind_lift_Ok.
  rewrite Hscale.
  rewrite bind_ret, Himg, Hcfg, Hne. cbn [andb].
  rewrite (bind_locate_Ok _ _ _ _ Hloc), Hloop. reflexivity.
Qed.

(** With an anchor configured and non-degenerate regions, the emitted
    result lists, in anchor order, what the two passes over each nested
    scan's result appended, and the regions scanned. *)
Lemma anchored_detection_result (w : World) (self : DetectionWorker)
    (cfg : gmap string Z) (selected_screen : Rect) (ox oy cw ch mx my : Z)
    (anchors_iter : pyiter) (scan : Rect -> pyiter) :
  image_setup w self selected_screen ->
  truthy (anchor_img self) = true ->
  anchor_config self = Some cfg ->
  cfg !! "offset_x" = Some ox ->
  cfg !! "offset_y" = Some oy ->
  cfg !! "w" = Some cw ->
  cfg !! "h" = Some ch ->
  dict_get cfg "margin_x" 0 = mx ->
  dict_get cfg "margin_y" 0 = my ->
  0 < cw + 2 * mx -> 0 < ch + 2 * my ->
  locateAllOnScreen w (anchor_args self) = Ok anchors_iter ->
  (forall a, a ∈ (iterate anchors_iter).1 ->
     locateAllOnScreen w
       (nested_args self selected_screen (region_of ox oy cw ch mx my a))
     = Ok (scan a)) ->
  signals (trace (run_image_detection w self))
  = [result_signal
       (flat_map (fun a => both_passes (scan a)) (iterate anchors_iter).1)
       (iterate anchors_iter).1
       (region_of ox oy cw ch mx my <$> (iterate anchors_iter).1)
       (Z.of_nat (length (flat_map (fun a => both_passes (scan a))
                            (iterate anchors_iter).1)))].
Proof.
  intros Hsetup Himg Hcfg Hox Hoy Hcw Hch Hmx Hmy Hw Hh Hloc Hscan.
  erewrite run_image_detection_anchored; eauto using truthy_dict_lookup.
  2: { rewrite Hmx, Hmy.
       by apply (anchors_loop_scan w self cfg selected_screen ox oy cw ch mx my). }
  unfold trace. cbn [fst app].
  change (Locate ?a :: ?l) with ([Locate a] ++ l).
  by rewrite !signals_app, signals_locate_fmap.
Qed.

(** C1, as the code has it.  With an anchor configured and every nested
    scan returning a list, the match list of the emitted result is the
    concatenation, in anchor order, of each nested scan's rectangles taken
    twice: once by the loop over the scan's result (lines 235-236) and once
    more by the [extend] that follows (line 237).  The emitted count is the
    length of that list.  A rectangle returned by a nested scan therefore
    appears twice in the match list, not once. *)
Theorem nested_matches_appended_twice (w : World) (self : DetectionWorker)
    (cfg : gmap string Z) (selected_screen : Rect) (ox oy cw ch mx my : Z)
    (anchors_iter : pyiter) (matches : Rect -> list Rect) :
  image_setup w self selected_screen ->
  truthy (anchor_img self) = true ->
  anchor_config self = Some cfg ->
  cfg !! "offset_x" = Some ox ->
  cfg !! "offset_y" = Some oy ->
  cfg !! "w" = Some cw ->
  cfg !! "h" = Some ch ->
  dict_get cfg "margin_x" 0 = mx ->
  dict_get cfg "margin_y" 0 = my ->
  0 < cw + 2 * mx -> 0 < ch + 2 * my ->
  locateAllOnScreen w (anchor_args self) = Ok anchors_iter ->
  (forall a, a ∈ (iterate anchors_iter).1 ->
     locateAllOnScreen w
       (nested_args self selected_screen (region_of ox oy cw ch mx my a))
     = Ok (PyList (matches a))) ->
  signals (trace (run_image_detection w self))
  = [result_signal
       (flat_map (fun a => matches a ++ matches a) (iterate anchors_iter).1)
       (iterate anchors_iter).1
       (region_of ox oy cw ch mx my <$> (iterate anchors_iter).1)
       (Z.of_nat (length (flat_map (fun a => matches a ++ matches a)
                            (iterate anchors_iter).1)))].
Proof.
  intros Hsetup Himg Hcfg Hox Hoy Hcw Hch Hmx Hmy Hw Hh Hloc Hscan.
  exact (anchored_detection_result w self cfg selected_screen ox oy cw ch
           mx my anchors_iter (fun a => PyList (matches a))
           Hsetup Himg Hcfg Hox Hoy Hcw Hch Hmx Hmy Hw Hh Hloc Hscan).
Qed.

(** X15.  Had the nested scans returned generators, the second pass would
    have found them exhausted and each rectangle would appear once. *)
Lemma nested_generator_matches_appended_once (w : World)
    (self : DetectionWorker) (cfg : gmap string Z) (selected_screen : Rect)
    (ox oy cw ch mx my : Z) (anchors_iter : pyiter)
    (matches : Rect -> list Rect) :
  image_setup w self selected_screen ->
  truthy (anchor_img self) = true ->
  anchor_config self = Some cfg ->
  cfg !! "offset_x" = Some ox ->
  cfg !! "offset_y" = Some oy ->
  cfg !! "w" = Some cw ->
  cfg !! "h" = Some ch ->
  dict_get cfg "margin_x" 0 = mx ->
  dict_get cfg "margin_y" 0 = my ->
  0 < cw + 2 * mx -> 0 < ch + 2 * my ->
  locateAllOnScreen w (anchor_args self) = Ok anchors_iter ->
  (forall a, a ∈ (iterate anchors_iter).1 ->
     locateAllOnScreen w
       (nested_args self selected_screen (region_of ox oy cw ch mx my a))
     = Ok (PyGenerator (matches a))) ->
  signals (trace (run_image_detection w self))
  = [result_signal
       (flat_map matches (iterate anchors_iter).1)
       (iterate anchors_iter).1
       (region_of ox oy cw ch mx my <$> (iterate anchors_iter).1)
       (Z.of_nat (length (flat_map matches (iterate anchors_iter).1)))].
Proof.
  intros Hsetup Himg Hcfg Hox Hoy Hcw Hch Hmx Hmy Hw Hh Hloc Hscan.
  rewrite (anchored_detection_result w self cfg selected_screen ox oy cw ch
             mx my anchors_iter (fun a => PyGenerator (matches a))); auto.
  by rewrite flat_map_both_passes_generator.
Qed.

Lemma example_image_setup (self : DetectionWorker) (scale : float * float) :
  screen_idx self = 0 ->
  scale_xy self (Some 1%float) (0, 0, 1920, 1080) = ret scale ->
  image_setup example_world self (0, 0, 1920, 1080).
Proof.
  intros H Hscale. exists [(0, 0, 1920, 1080)], (Some 1%float), scale.
  rewrite H. repeat split. exact Hscale.
Defined.

Lemma nested_matches_appended_twice_witness :
  signals (trace (run_image_detection example_world anchored_worker))
  = [result_signal [(7, 8, 9, 10); (7, 8, 9, 10)] [(200, 300, 30, 30)]
       [(205, 305, 110, 60)] 2].
Proof.
  apply (nested_matches_appended_twice example_world anchored_worker
           example_anchor_config (0, 0, 1920, 1080) 10 10 100 50 5 5
           (PyList [(200, 300, 30, 30)]) (fun _ => [(7, 8, 9, 10)]));
    try reflexivity.
  apply (example_image_setup _ (1%float, 1%float)); reflexivity.
Defined.

(** ** Image detection: degenerate regions *)

(** C6.  An anchor whose derived region has width or height at most 0 is
    skipped: the loop body leaves the match list and the list of scanned
    regions as they were and makes no search, so the loop goes on with the
    next anchor.  The derived size does not depend on the anchor; with such
    a configuration the run makes the anchor search only, and emits a
    result with no match and no scanned region. *)
Theorem degenerate_region_skipped (w : World) (self : DetectionWorker)
    (cfg : gmap string Z) (selected_screen : Rect) (ox oy cw ch mx my : Z)
    (anchors_iter : pyiter) :
  image_setup w self selected_screen ->
  truthy (anchor_img self) = true ->
  anchor_config self = Some cfg ->
  cfg !! "offset_x" = Some ox ->
  cfg !! "offset_y" = Some oy ->
  cfg !! "w" = Some cw ->
  cfg !! "h" = Some ch ->
  dict_get cfg "margin_x" 0 = mx ->
  dict_get cfg "margin_y" 0 = my ->
  locateAllOnScreen w (anchor_args self) = Ok anchors_iter ->
  (forall anchor st,
     width (region_of ox oy cw ch mx my anchor) <= 0 \/
     height (region_of ox oy cw ch mx my anchor) <= 0 ->
     anchor_body w self cfg mx my selected_screen anchor st = ret st) /\
  (cw + 2 * mx <= 0 \/ ch + 2 * my <= 0 ->
   run_image_detection w self
   = ([Locate (anchor_args self);
       result_signal [] (iterate anchors_iter).1 [] 0], Normal tt)).
Proof.
  intros Hsetup Himg Hcfg Hox Hoy Hcw Hch Hmx Hmy Hloc. split.
  - intros [[[ax ay] aw] ah] st Hdeg.
    by apply (anchor_body_skip w self cfg selected_screen ox oy cw ch mx my).
  - intros Hdeg.
    erewrite run_image_detection_anchored; eauto using truthy_dict_lookup.
    2: { rewrite Hmx, Hmy.
         by apply (anchors_loop_skip w self cfg selected_screen
                     ox oy cw ch mx my). }
    reflexivity.
Qed.

Lemma degenerate_region_skipped_witness :
  (forall anchor st,
     width (region_of 10 10 0 50 0 0 anchor) <= 0 \/
     height (region_of 10 10 0 50 0 0 anchor) <= 0 ->
     anchor_body example_world degenerate_worker degenerate_anchor_config
       0 0 (0, 0, 1920, 1080) anchor st = ret st) /\
  (0 + 2 * 0 <= 0 \/ 50 + 2 * 0 <= 0 ->
   run_image_detection example_world degenerate_worker
   = ([Locate (anchor_args degenerate_worker);
       result_signal [] [(200, 300, 30, 30)] [] 0], Normal tt)).
Proof.
  apply (degenerate_region_skipped example_world degenerate_worker
           degenerate_anchor_config (0, 0, 1920, 1080) 10 10 0 50 0 0
           (PyList [(200, 300, 30, 30)]));
    try reflexivity.
  apply (example_image_setup _ (1%float, 1%float)); reflexivity.
Defined.

(** ** Region capture: the failure reasons *)

Lemma resolve_region_cases (w : World) (self : DetectionWorker) :
  (exists e,
     anchor_configured self = true /\
     locateAllOnScreen w (anchor_args self) = Err e /\
     resolve_region w self = ([Locate (anchor_args self)], Raise e)) \/
  (exists it,
     anchor_configured self = true /\
     locateAllOnScreen w (anchor_args self) = Ok it /\
     (iterate it).1 = [] /\
     resolve_region w self
     = ([Locate (anchor_args self);
         text_signal QImage_null "Anchor not found"], Return)) \/
  (exists it a l r,
     anchor_configured self = true /\
     locateAllOnScreen w (anchor_args self) = Ok it /\
     (iterate it).1 = a :: l /\
     resolve_region w self = ([Locate (anchor_args self)], Normal (Some r))) \/
  (anchor_configured self = false /\
   resolve_region w self = ([], Normal (text_rect self))).
Proof.
  unfold resolve_region. fold (anchor_configured self).
  destruct (anchor_configured self) eqn:Hcond; [| by right; right; right].
  destruct (locateAllOnScreen w (anchor_args self)) as [it | e] eqn:Hloc.
  - rewrite (bind_locate_Ok _ _ _ _ Hloc).
    destruct (iterate it).1 as [| [[[ax ay] aw] ah] l] eqn:Hit.
    + right; left. by exists it.
    + right; right; left.
      unfold anchor_configured in Hcond.
      destruct (text_rect self) as [[[[rel_x rel_y] rw] rh] |];
        [| by rewrite andb_false_r in Hcond].
      exists it, (ax, ay, aw, ah), l, (ax + rel_x, ay + rel_y, rw, rh).
      by rewrite Hit.
  - left. exists e. by rewrite (locate_Err _ _ _ Hloc).
Qed.

Lemma capture_and_read_cases (w : World) (self : DetectionWorker) (r : Rect) :
  (exists e,
     (prepare_capture w r = Err e \/
      exists img, prepare_capture w r = Ok (Some img) /\ size img <> 0) /\
     capture_and_read w self r = ([Capture r], Raise e)) \/
  (no_data (prepare_capture w r) /\
   capture_and_read w self r
   = ([Capture r; text_signal QImage_null "Capture Error"], Return)) \/
  (exists img pixels qw qh bytes_per_line text,
     prepare_capture w r = Ok (Some img) /\ size img <> 0 /\
     capture_and_read w self r
     = ([Capture r; Recognize ["mode"; "use_det"];
         text_signal (QImage_RGBA8888 pixels qw qh bytes_per_line) text],
        Normal tt)).
Proof.
  unfold capture_and_read, capture. rewrite bind_assoc, bind_emit.
  destruct (prepare_capture w r) as [[img |] | e] eqn:Hcap.
  - rewrite bind_lift_Ok.
    destruct (Z.eqb_spec (size img) 0) as [Hz | Hnz].
    { right; left. split; [right; eauto | reflexivity]. }
    destruct (cvtColor_BGRA2RGBA w img) as [preview | e].
    2: { left. exists e. split; [right; eauto | reflexivity]. }
    rewrite bind_lift_Ok.
    destruct (unpack_shape (shape preview)) as [[[h w_] ch] | e].
    2: { left. exists e. split; [right; eauto | reflexivity]. }
    rewrite bind_lift_Ok. right; right.
    unfold run_ocr. rewrite bind_assoc, bind_emit.
    destruct (text_recognition.get_text_from_image w (Some img) _);
      rewrite bind_ret; do 6 eexists; (split; [reflexivity | split; [done |]]);
      reflexivity.
  - right; left. split; [by left | reflexivity].
  - left. exists e. split; [by left | reflexivity].
Qed.

Lemma fails_with_unique (m : Py unit) (r1 r2 : string) :
  fails_with r1 m -> fails_with r2 m -> r1 = r2.
Proof. unfold fails_with. intros H1 H2. congruence. Qed.

Lemma no_data_Err (e : exn) : ~ no_data (Err e).
Proof. intros [H | (img & H & _)]; discriminate. Qed.

Lemma no_data_Some (img : ndarray) : size img <> 0 -> ~ no_data (Ok (Some img)).
Proof. intros Hnz [H | (img' & H & Hz)]; [discriminate | congruence]. Qed.

Lemma quiet_nil (w : World) : quiet w [].
Proof.
  split; [done |]. split; intros x H; by apply elem_of_nil in H.
Qed.

Lemma quiet_locate (w : World) (args : LocateArgs) : quiet w [Locate args].
Proof.
  split; [done |].
  split; intros x H; apply list_elem_of_singleton in H; discriminate.
Qed.

Lemma quiet_capture (w : World) (pre : list event) (r : Rect) :
  quiet w pre -> ~ no_data (prepare_capture w r) -> quiet w (pre ++ [Capture r]).
Proof.
  intros (Hs & Hc & Hk) Hr. split; [by rewrite signals_app, Hs |]. split.
  - intros r' H. apply elem_of_app in H as [H | H]; [auto |].
    apply list_elem_of_singleton in H. by inversion H; subst.
  - intros kws H. apply elem_of_app in H as [H | H]; [auto |].
    apply list_elem_of_singleton in H. discriminate.
Qed.

Lemma quiet_recognize (w : World) (pre : list event) :
  quiet w pre -> quiet w (pre ++ [Recognize ["mode"; "use_det"]]).
Proof.
  intros (Hs & Hc & Hk). split; [by rewrite signals_app, Hs |]. split.
  - intros r' H. apply elem_of_app in H as [H | H]; [auto |].
    apply list_elem_of_singleton in H. discriminate.
  - intros kws H. apply elem_of_app in H as [H | H]; [auto |].
    apply list_elem_of_singleton in H. by inversion H.
Qed.

Lemma resolve_region_resolves (w : World) (self : DetectionWorker)
    (pre : list event) (r : Rect) :
  resolve_region w self = (pre, Normal (Some r)) -> resolves w self r.
Proof.
  unfold resolve_region, resolves. fold (anchor_configured self).
  destruct (anchor_configured self) eqn:Hcond.
  - destruct (locateAllOnScreen w (anchor_args self)) as [it | e] eqn:Hloc.
    + rewrite (bind_locate_Ok _ _ _ _ Hloc).
      destruct (iterate it).1 as [| [[[ax ay] aw] ah] l] eqn:Hit;
        [discriminate |].
      destruct (text_rect self) as [[[[rel_x rel_y] rw] rh] |];
        [| discriminate].
      intros [= _ <-]. exists it, ax, ay, aw, ah, l, rel_x, rel_y, rw, rh.
      by rewrite Hit.
    + by rewrite (locate_Err _ _ _ Hloc).
  - by intros [= _ ->].
Qed.

Lemma resolves_functional (w : World) (self : DetectionWorker) (r r' : Rect) :
  resolves w self r -> resolves w self r' -> r = r'.
Proof.
  unfold resolves. destruct (anchor_configured self); [| congruence].
  intros (it & ax & ay & aw & ah & l & rx & ry & rw & rh & Hl & Hi & Hr & ->)
         (it' & ax' & ay' & aw' & ah' & l' & rx' & ry' & rw' & rh'
          & Hl' & Hi' & Hr' & ->).
  congruence.
Qed.

Lemma capture_request_functional (w : World) (self : DetectionWorker)
    (r r' : Rect) :
  capture_request w self r -> capture_request w self r' -> r = r'.
Proof.
  intros (region & offsets & Hres & Hoff & ->)
         (region' & offsets' & Hres' & Hoff' & ->).
  rewrite (resolves_functional _ _ _ _ Hres Hres'). congruence.
Qed.

(** The run after the region has been resolved to [r], with the events
    [pre] of the resolution behind it. *)
Lemma text_run_resolved (w : World) (self : DetectionWorker) (pre : list event)
    (r : Rect) :
  ~ anchor_missing w self -> ~ region_missing self -> quiet w pre ->
  resolves w self r ->
  text_run w self
    (try_except (final_region <- (pre, Normal (Some r)) ;;
                 after_region w self final_region) text_handler).
Proof.
  intros HA HB Hpre Hres. unfold bind at 1. cbn [fst snd after_region].
  destruct (text_offsets self) as [offsets |] eqn:Hoff.
  2: { unfold try_except. cbn. rewrite app_nil_r.
       apply (run_error w self pre
                (TypeError "cannot unpack non-iterable NoneType object"));
         auto.
       intros r' (region & offsets & _ & Hoff' & _). congruence. }
  assert (capture_request w self (capture_region r offsets)) as Hreq
    by (by exists r, offsets).
  assert (~ no_data (prepare_capture w (capture_region r offsets)) ->
          forall r', capture_request w self r' ->
                     ~ no_data (prepare_capture w r')) as Hdata.
  { intros Hyes r' Hreq'.
    by rewrite (capture_request_functional _ _ _ _ Hreq' Hreq). }
  cbn [unpack4]. rewrite bind_lift_Ok.
  destruct (capture_and_read_cases w self (capture_region r offsets))
    as [(e & Hcap & ->) | [(Hcap & ->)
        | (img & px & qw & qh & bpl & text & Hcap & Hnz & ->)]];
    unfold try_except; cbn [fst snd text_handler emit].
  - assert (~ no_data (prepare_capture w (capture_region r offsets))) as Hyes.
    { destruct Hcap as [-> | (img & -> & Hnz)];
        [apply no_data_Err | by apply no_data_Some]. }
    replace (pre ++ [Capture (capture_region r offsets)] ++ _)
      with ((pre ++ [Capture (capture_region r offsets)])
              ++ [text_signal QImage_null ("Error: " +:+ str e)])
      by (by rewrite <- app_assoc).
    apply run_error; auto. apply quiet_capture; auto.
  - by apply run_capture_error.
  - assert (~ no_data (prepare_capture w (capture_region r offsets))) as Hyes.
    { rewrite Hcap. by apply no_data_Some. }
    replace (pre ++ [Capture (capture_region r offsets);
                     Recognize ["mode"; "use_det"];
                     text_signal (QImage_RGBA8888 px qw qh bpl) text])
      with (((pre ++ [Capture (capture_region r offsets)])
               ++ [Recognize ["mode"; "use_det"]])
              ++ [text_signal (QImage_RGBA8888 px qw qh bpl) text])
      by (by rewrite <- !app_assoc).
    apply run_success; auto.
    apply quiet_recognize, quiet_capture; auto.
Qed.

Lemma text_run_classified (w : World) (self : DetectionWorker)
    (selected_screen : Rect) :
  text_setup w self selected_screen ->
  text_run w self (run_text_extraction w self).
Proof.
  intros Hsetup. rewrite (run_text_extraction_setup _ _ _ Hsetup).
  destruct (resolve_region_cases w self)
    as [(e & Hc & Hl & Hr) | [(it & Hc & Hl & Hi & Hr)
        | [(it & a & l & r & Hc & Hl & Hi & Hr) | (Hc & Hr)]]].
  - rewrite Hr. apply (run_error w self [Locate (anchor_args self)] e).
    + intros (_ & it & Hit & _). congruence.
    + intros (Hn & _). congruence.
    + apply quiet_locate.
    + intros r (region & offsets & Hres & _). exfalso.
      unfold resolves in Hres. rewrite Hc in Hres.
      destruct Hres as (it & ? & ? & ? & ? & ? & ? & ? & ? & ? & Hit & _).
      congruence.
  - rewrite Hr. apply run_anchor_not_found. split; eauto.
  - pose proof (resolve_region_resolves _ _ _ _ Hr) as Hres. rewrite Hr.
    apply text_run_resolved; [| | apply quiet_locate | done].
    + intros (_ & it' & Hit' & Hnil). congruence.
    + intros (Hn & _). congruence.
  - rewrite Hr. destruct (text_rect self) as [r |] eqn:Hrect.
    + apply text_run_resolved; [| | apply quiet_nil |].
      * intros (Hy & _). congruence.
      * intros (_ & Hn). congruence.
      * unfold resolves. by rewrite Hc.
    + by apply run_no_region.
Qed.

Lemma signals_quiet_app (w : World) (pre post : list event) :
  quiet w pre -> signals (pre ++ post) = signals post.
Proof. intros (Hs & _). by rewrite signals_app, Hs. Qed.

(** C9, as the code has it.  The reasons are those of a run that has built
    its session and selected its monitor.  Such a run fails with "Anchor not
    found" exactly when anchor image, anchor configuration and base
    rectangle are all set and the anchor search returns no match; with "No
    region defined" exactly when they are not all set and there is no base
    rectangle; with "Capture Error" exactly when the capture primitive
    yields no data for the rectangle the run asks it for, the resolved
    region fine-tuned by the offsets.  The run delivers exactly one signal,
    so no two reasons are reported together, and it raises nothing. *)
Theorem region_capture_failure_reasons (w : World) (self : DetectionWorker)
    (selected_screen : Rect) :
  text_setup w self selected_screen ->
  (fails_with "Anchor not found" (run_text_extraction w self) <->
     anchor_configured self = true /\
     exists anchors_iter,
       locateAllOnScreen w (anchor_args self) = Ok anchors_iter /\
       (iterate anchors_iter).1 = []) /\
  (fails_with "No region defined" (run_text_extraction w self) <->
     anchor_configured self = false /\ text_rect self = None) /\
  (fails_with "Capture Error" (run_text_extraction w self) <->
     exists r, capture_request w self r /\ no_data (prepare_capture w r)) /\
  (forall r, capture_request w self r -> no_data (prepare_capture w r) ->
     Capture r ∈ trace (run_text_extraction w self)) /\
  (exists image text,
     signals (trace (run_text_extraction w self)) = [text_signal image text]) /\
  (forall r1 r2,
     fails_with r1 (run_text_extraction w self) ->
     fails_with r2 (run_text_extraction w self) -> r1 = r2) /\
  (forall e, snd (run_text_extraction w self) <> Raise e).
Proof.
  intros Hsetup.
  fold (anchor_missing w self). fold (region_missing self).
  assert (forall r, capture_request w self r ->
            ~ anchor_missing w self /\ ~ region_missing self) as Hreq.
  { intros r (region & offsets & Hres & _). unfold resolves in Hres.
    split.
    - intros (Hc & it & Hit & Hnil). rewrite Hc in Hres.
      destruct Hres as (it' & ? & ? & ? & ? & ? & ? & ? & ? & ? & Hit' & Hi & _).
      congruence.
    - intros (Hc & Hnone). rewrite Hc in Hres. congruence. }
  split; [| split; [| split; [| split; [| split; [| split]]]]];
    try (intros r1 r2; apply fails_with_unique).
  all: destruct (text_run_classified w self selected_screen Hsetup)
         as [HA | HB | pre r HA HB Hpre Hno Hr | pre e HA HB Hpre Hdata
             | pre px qw qh bpl text HA HB Hpre Hdata];
       unfold fails_with, trace; cbn [fst snd];
       rewrite ?(signals_quiet_app w pre) by done.
  all: try (split; [intros H | intros H]); try done; try discriminate.
  all: try (eexists _, _; reflexivity).
  all: try (exfalso; unfold anchor_missing, region_missing in *;
            destruct H as (H1 & H2);
            first [destruct HA as (HA1 & HA2) | destruct HB as (HB1 & HB2)];
            congruence).
  all: try (destruct H as (r0 & Hreq0 & Hno0); exfalso;
            first [by apply (Hdata r0)
                  | by destruct (Hreq r0 Hreq0) as [HA' HB']]).
  all: try (intros r0 Hreq0 Hno0; exfalso;
            first [by apply (Hdata r0)
                  | by destruct (Hreq r0 Hreq0) as [HA' HB']]).
  - by exists r.
  - intros r0 Hreq0 _. rewrite (capture_request_functional _ _ _ _ Hreq0 Hr).
    apply elem_of_app; right. by left.
Qed.

Lemma region_capture_failure_reasons_witness :
  fails_with "Anchor not found"
    (run_text_extraction no_match_world anchored_text_worker).
Proof.
  apply (region_capture_failure_reasons no_match_world anchored_text_worker
           (0, 0, 1920, 1080)).
  - split; [reflexivity |].
    exists [(0, 0, 1920, 1080)]. repeat split.
  - split; [reflexivity |]. exists (PyList []). split; reflexivity.
Defined.

(** Without the session the reasons are not reached: a request that sets
    neither anchor nor base rectangle, in a world whose session cannot be
    built, is answered with the message of the exception, not with "No
    region defined". *)
Lemma region_capture_reason_needs_session :
  region_missing unconfigured_text_worker /\
  fails_with "Error: no display"
    (run_text_extraction no_display_world unconfigured_text_worker).
Proof. by repeat split. Qed.

(** ** Region capture: delivery of the result *)

(** How a run of the region capture starts: it gets past the selection of
    the monitor, or a collaborator raised before that, or the monitor index
    is not below the number of monitors and the run returns at line 63. *)
Lemma text_run_entry (w : World) (self : DetectionWorker) :
  (exists selected_screen, text_setup w self selected_screen) \/
  (exists e,
     run_text_extraction w self
     = ([text_signal QImage_null ("Error: " +:+ str e)], Normal tt)) \/
  (Session w (screen_idx self) (source_resolution self) (source_dpr self) = Ok tt /\
   exists monitors,
     get_monitors_safe w = Ok monitors /\
     Z.of_nat (length monitors) <= screen_idx self /\
     run_text_extraction w self = ([], Return)).
Proof.
  unfold run_text_extraction, text_setup.
  destruct (Session w _ _ _) as [[] | e]; [| right; left; by exists e].
  destruct (get_monitors_safe w) as [monitors | e];
    [| right; left; by exists e].
  rewrite !bind_lift_Ok.
  destruct (Z.ltb_spec (screen_idx self) (Z.of_nat (length monitors)))
    as [Hlt | Hge].
  - destruct (getitem monitors (screen_idx self)) as [screen | e] eqn:Hget;
      [| right; left; by exists e].
    left. exists screen. split; [done |]. exists monitors. by repeat split.
  - right; right. split; [done |]. exists monitors. by repeat split.
Qed.

(** C2, as the code has it.  When the monitor index is not below the number
    of monitors, the run of the region capture returns at line 63 without
    emitting anything: no result is delivered, neither an image with text
    nor a failure. *)
Theorem region_capture_out_of_range_delivers_nothing (w : World)
    (self : DetectionWorker) (monitors : list Rect) :
  Session w (screen_idx self) (source_resolution self) (source_dpr self) = Ok tt ->
  get_monitors_safe w = Ok monitors ->
  Z.of_nat (length monitors) <= screen_idx self ->
  run_text_extraction w self = ([], Return).
Proof.
  intros HS Hm Hge. unfold run_text_extraction.
  rewrite HS, Hm, !bind_lift_Ok. apply Z.ltb_ge in Hge. by rewrite Hge.
Qed.

Lemma region_capture_out_of_range_delivers_nothing_witness :
  run_text_extraction example_world out_of_range_text_worker = ([], Return).
Proof.
  exact (region_capture_out_of_range_delivers_nothing example_world
           out_of_range_text_worker [(0, 0, 1920, 1080)]
           eq_refl eq_refl (Z.le_refl 1)).
Defined.

(** Every other run of the region capture delivers exactly one signal, and
    no run raises. *)
Lemma region_capture_delivers_one_otherwise (w : World) (self : DetectionWorker) :
  (forall e, snd (run_text_extraction w self) <> Raise e) /\
  ((exists image text,
      signals (trace (run_text_extraction w self)) = [text_signal image text]) \/
   (run_text_extraction w self = ([], Return) /\
    exists monitors,
      get_monitors_safe w = Ok monitors /\
      Z.of_nat (length monitors) <= screen_idx self)).
Proof.
  destruct (text_run_entry w self)
    as [(screen & Hsetup) | [(e & ->) | (_ & monitors & Hm & Hge & ->)]].
  - destruct (text_run_classified w self screen Hsetup)
      as [HA | HB | pre r HA HB Hpre Hno | pre e HA HB Hpre
          | pre px qw qh bpl text HA HB Hpre];
      (split; [discriminate |]); left; unfold trace; cbn [fst];
      rewrite ?(signals_quiet_app w pre) by done; by eexists _, _.
  - split; [discriminate |]. left. by eexists _, _.
  - split; [discriminate |]. right. split; [done |]. by exists monitors.
Qed.

(** ** Region capture: the OCR language *)

(** With [get_text_from_image] as it is declared in [text_recognition.py],
    the call of lines 139-143 is refused before the body runs: [mode] is
    not one of its parameters.  The text of the signal is the message of
    that [TypeError]. *)
Lemma run_ocr_unexpected_keyword (w : World) (self : DetectionWorker)
    (img_data : ndarray) :
  run_ocr w self img_data
  = ([Recognize ["mode"; "use_det"]],
     Normal "OCR Error: get_text_from_image() got an unexpected keyword argument 'mode'").
Proof. reflexivity. Qed.

Lemma recognize_keywords (w : World) (self : DetectionWorker)
    (keywords : list string) :
  Recognize keywords ∈ trace (run_text_extraction w self) ->
  keywords = ["mode"; "use_det"].
Proof.
  unfold trace.
  destruct (text_run_entry w self)
    as [(screen & Hsetup) | [(e & ->) | (_ & monitors & Hm & Hge & ->)]].
  - destruct (text_run_classified w self screen Hsetup)
      as [HA | HB | pre r HA HB Hpre Hno Hreq | pre e HA HB Hpre Hdata
          | pre px qw qh bpl text HA HB Hpre Hdata];
      cbn [fst]; intros H;
      try (apply elem_of_app in H as [H | H];
           [by apply (proj2 (proj2 Hpre)) |]);
      repeat (apply elem_of_cons in H as [H | H]; [discriminate H |]);
      by apply elem_of_nil in H.
  - cbn [fst]. intros H. apply list_elem_of_singleton in H. discriminate.
  - cbn [fst]. intros H. by apply elem_of_nil in H.
Qed.

(** C10.  Two region-capture requests that differ in [ocr_lang] only run
    alike: same calls, same captured image, same text.  The pipeline calls
    the text recognition with the keywords [mode] and [use_det] and never
    with [lang], although [get_text_from_image] has a [lang] parameter,
    which defaults to 'en-US'. *)
Theorem ocr_lang_not_forwarded (w : World) (self : DetectionWorker)
    (lang1 lang2 : string) :
  run_text_extraction w (with_ocr_lang lang1 self)
  = run_text_extraction w (with_ocr_lang lang2 self) /\
  (forall keywords,
     Recognize keywords ∈ trace (run_text_extraction w self) ->
     "lang" ∉ keywords) /\
  (forall image_data,
     text_recognition.get_text_from_image w image_data []
     = text_recognition.get_text_from_image_body w image_data (PyStr "en-US")) /\
  "lang" ∈ text_recognition.parameters.
Proof.
  split; [reflexivity |]. split; [| split; [reflexivity |]].
  - intros keywords H. rewrite (recognize_keywords w self keywords H).
    intros Hin.
    repeat (apply elem_of_cons in Hin as [Hin | Hin]; [discriminate Hin |]).
    by apply elem_of_nil in Hin.
  - unfold text_recognition.parameters. apply elem_of_cons; right. by left.
Qed.


(** ** Two complete runs on the concrete world *)

Example anchored_run :
  trace (run example_world anchored_worker)
  = [Locate (anchor_args anchored_worker);
     Locate (target_args anchored_worker (Some (205, 305, 110, 60)));
     result_signal [(7, 8, 9, 10); (7, 8, 9, 10)] [(200, 300, 30, 30)]
       [(205, 305, 110, 60)] 2].
Proof. reflexivity. Qed.

Example anchored_text_run :
  trace (run example_world anchored_text_worker)
  = [Locate (anchor_args anchored_text_worker);
     Capture (209, 308, 25, 25);
     Recognize ["mode"; "use_det"];
     text_signal (QImage_RGBA8888 [3; 2; 1; 4] 1 1 4)
       "OCR Error: get_text_from_image() got an unexpected keyword argument 'mode'"].
Proof. reflexivity. Qed.

(** * Further properties of the two pipelines *)

(** ** Every detection delivers one result *)

Lemma straight_ret {A} (a : A) : straight (ret a).
Proof. discriminate. Qed.

Lemma straight_raise {A} (e : exn) : straight (@raise A e).
Proof. discriminate. Qed.

Lemma straight_lift {A} (r : result A) : straight (lift r).
Proof. destruct r; discriminate. Qed.

Lemma straight_locate (w : World) (args : LocateArgs) : straight (locate w args).
Proof.
  unfold locate. rewrite bind_emit.
  destruct (locateAllOnScreen w args); discriminate.
Qed.

Lemma straight_bind {A B} (m : Py A) (k : A -> Py B) :
  straight m -> (forall a, straight (k a)) -> straight (bind m k).
Proof.
  unfold straight, bind. intros Hm Hk.
  destruct m as [t [a | | e]]; cbn [fst snd] in *; [apply Hk | done | done].
Qed.

Lemma straight_for_each {A S} (l : list A) (body : A -> S -> Py S) (s : S) :
  (forall a s', straight (body a s')) -> straight (for_each l body s).
Proof.
  intros Hbody. revert s. induction l as [| a l IH]; intros s.
  - apply straight_ret.
  - cbn [for_each]. apply straight_bind; auto.
Qed.

Ltac straight_step :=
  match goal with
  | |- straight (ret _) => apply straight_ret
  | |- straight (raise _) => apply straight_raise
  | |- straight (lift _) => apply straight_lift
  | |- straight (locate _ _) => apply straight_locate
  | |- straight (scale_xy ?s ?t ?r) =>
      let H := fresh in
      destruct (scale_xy_silent s t r) as [[? H] | [? H]]; rewrite H;
      [apply straight_ret | apply straight_raise]
  | |- straight (bind _ _) => apply straight_bind; [| intros ?]
  | |- straight (for_each _ _ _) => apply straight_for_each; intros ? ?
  | |- straight (match ?x with _ => _ end) => destruct x
  end.

Lemma anchor_body_straight (w : World) (self : DetectionWorker)
    (cfg : gmap string Z) (mx my : Z) (screen anchor : Rect)
    (st : list Rect * list Rect) :
  straight (anchor_body w self cfg mx my screen anchor st).
Proof.
  unfold anchor_body, derive_region.
  destruct st as [final_rects scanned], anchor as [[[ax ay] aw] ah].
  repeat straight_step.
Qed.

Lemma delivers_bind {A} (w : World) (m : Py A) (k : A -> Py unit) :
  tame w m -> straight m -> (forall a, delivers (k a)) -> delivers (bind m k).
Proof.
  intros [Hs _] Hm Hk. unfold delivers, bind, straight in *.
  destruct m as [t [a | | e]]; cbn [fst snd] in *; [| done | done].
  specialize (Hk a). unfold one_result in *.
  destruct (k a) as [t' [[] | | e']]; cbn [fst snd] in *;
    by rewrite signals_app, Hs.
Qed.

Lemma delivers_emit (rects anchors scanned : list Rect) :
  delivers (emit (result_signal rects anchors scanned (Z.of_nat (length rects)))).
Proof. by exists rects, anchors, scanned. Qed.

Lemma direct_scan_delivers (w : World) (self : DetectionWorker)
    (scale_x scale_y : float) (found_anchors scanned_regions : list Rect) :
  delivers (direct_scan w self scale_x scale_y found_anchors scanned_regions).
Proof.
  unfold direct_scan.
  apply (delivers_bind w); [repeat tame_step | repeat straight_step |].
  intros scanned.
  apply (delivers_bind w); [repeat tame_step | repeat straight_step |].
  intros [items | items]; cbn [len lift].
  - rewrite bind_ret. apply delivers_emit.
  - reflexivity.
Qed.

(** The body of the detection delivers, whatever the collaborators do. *)
Lemma run_image_detection_delivers (w : World) (self : DetectionWorker) :
  one_result (trace (run_image_detection w self)) /\
  forall e, snd (run_image_detection w self) <> Raise e.
Proof.
  unfold run_image_detection, trace.
  match goal with |- context [try_except ?b _] =>
    assert (delivers b) as Hd end.
  { apply (delivers_bind w); [repeat tame_step | repeat straight_step |].
    intros monitors.
    apply (delivers_bind w); [repeat tame_step | repeat straight_step |].
    intros _.
    destruct (screen_idx self <? Z.of_nat (length monitors)).
    - apply (delivers_bind w); [repeat tame_step | repeat straight_step |].
      intros selected_screen.
      apply (delivers_bind w); [repeat tame_step | repeat straight_step |].
      intros target_dpr.
      apply (delivers_bind w); [repeat tame_step | repeat straight_step |].
      intros scale.
      destruct (truthy (anchor_img self) && truthy_dict (anchor_config self)).
      + apply (delivers_bind w); [repeat tame_step | repeat straight_step |].
        intros anchors_iter.
        destruct (anchor_config self) as [cfg |]; [| reflexivity].
        apply (delivers_bind w).
        * apply tame_for_each. intros a s'. apply anchor_body_tame.
        * apply straight_for_each. intros a s'. apply anchor_body_straight.
        * intros st. apply delivers_emit.
      + apply direct_scan_delivers.
    - by exists [], [], []. }
  unfold delivers, try_except in *.
  match goal with |- context [snd ?b] => destruct b as [t [[] | | e]] end;
    cbn [fst snd] in *; (split; [| discriminate]); try assumption.
  exists [], [], []. by rewrite signals_app, Hd.
Qed.

(** X1.  Every run of the image detection, whatever the collaborators
    return or raise, emits exactly one [result_signal]; the count it carries
    is the length of the match list it carries; and the run raises nothing. *)
Theorem image_detection_delivers_one_result (w : World) (self : DetectionWorker) :
  (exists rects anchors scanned,
     signals (trace (run_image_detection w self))
     = [result_signal rects anchors scanned (Z.of_nat (length rects))]) /\
  (forall e, snd (run_image_detection w self) <> Raise e).
Proof. apply run_image_detection_delivers. Qed.

(** X2.  A run of the worker in mode 'text' emits no [result_signal] and at
    most one [text_signal]; a run in any other mode, known or not, is an
    image detection and emits exactly one [result_signal] and no
    [text_signal]. *)
Theorem run_signal_kind (w : World) (self : DetectionWorker) :
  (mode self = "text" ->
     signals (trace (run w self)) = [] \/
     exists image text, signals (trace (run w self)) = [text_signal image text]) /\
  (mode self <> "text" ->
     exists rects anchors scanned count,
       signals (trace (run w self)) = [result_signal rects anchors scanned count]).
Proof.
  unfold run. split.
  - intros ->. cbn [String.eqb Ascii.eqb Bool.eqb andb].
    destruct (region_capture_delivers_one_otherwise w self)
      as [_ [H | [H _]]]; [by right | left].
    by rewrite H.
  - intros Hmode. apply String.eqb_neq in Hmode. rewrite Hmode.
    destruct (run_image_detection_delivers w self)
      as [(rects & anchors & scanned & H) _]. eauto.
Qed.

(** X3.  If the monitor index is in range whenever the monitors can be
    listed, the region capture delivers exactly one [text_signal] and
    raises nothing, whatever else the collaborators return or raise. *)
Theorem region_capture_delivers_exactly_one (w : World) (self : DetectionWorker) :
  (forall monitors,
     get_monitors_safe w = Ok monitors ->
     screen_idx self < Z.of_nat (length monitors)) ->
  (exists image text,
     signals (trace (run_text_extraction w self)) = [text_signal image text]) /\
  (forall e, snd (run_text_extraction w self) <> Raise e).
Proof.
  intros Hrange.
  destruct (region_capture_delivers_one_otherwise w self)
    as [Hraise [H | (_ & monitors & Hm & Hge)]]; [done |].
  specialize (Hrange monitors Hm). lia.
Qed.

Lemma region_capture_delivers_exactly_one_witness :
  (exists image text,
     signals (trace (run_text_extraction example_world static_text_worker))
     = [text_signal image text]) /\
  (forall e, snd (run_text_extraction example_world static_text_worker) <> Raise e).
Proof.
  apply (region_capture_delivers_exactly_one example_world static_text_worker).
  intros monitors H. injection H as <-. reflexivity.
Defined.

(** ** Properties of traces that compose *)

Section TraceInvariant.
Context (P : list event -> Prop).
Hypothesis P_nil : P [].
Hypothesis P_app : forall t1 t2, P t1 -> P t2 -> P (t1 ++ t2).

Lemma trace_lift {A} (r : result A) : P (fst (lift r)).
Proof. by destruct r. Qed.

Lemma trace_bind {A B} (m : Py A) (k : A -> Py B) :
  P (fst m) -> (forall a, P (fst (k a))) -> P (fst (bind m k)).
Proof.
  intros Hm Hk. unfold bind.
  destruct m as [t [a | | e]]; cbn [fst snd] in *; auto.
Qed.

Lemma trace_try_except (body : Py unit) (handler : exn -> Py unit) :
  P (fst body) -> (forall e, P (fst (handler e))) ->
  P (fst (try_except body handler)).
Proof.
  intros Hb Hh. unfold try_except.
  destruct body as [t [[] | | e]]; cbn [fst snd] in *; auto.
Qed.

Lemma trace_for_each {A S} (l : list A) (body : A -> S -> Py S) (s : S) :
  (forall a s', P (fst (body a s'))) -> P (fst (for_each l body s)).
Proof.
  intros Hbody. revert s. induction l as [| a l IH]; intros s; [done |].
  cbn [for_each]. apply trace_bind; auto.
Qed.
End TraceInvariant.

(** ** Region capture: the text that comes with a captured image *)

Lemma texts_refused_nil : texts_refused [].
Proof. intros image text H. by apply elem_of_nil in H. Qed.

Lemma texts_refused_app (t1 t2 : list event) :
  texts_refused t1 -> texts_refused t2 -> texts_refused (t1 ++ t2).
Proof.
  intros H1 H2 image text H. apply elem_of_app in H as [H | H]; eauto.
Qed.

Lemma texts_refused_failure (reason : string) :
  texts_refused [text_signal QImage_null reason].
Proof.
  intros image text H. apply list_elem_of_singleton in H.
  left. by inversion H.
Qed.

Ltac texts_bind :=
  apply (trace_bind texts_refused);
  try exact texts_refused_nil; try exact texts_refused_app.
Ltac texts_lift :=
  apply (trace_lift texts_refused);
  try exact texts_refused_nil; try exact texts_refused_app.
Ltac texts_try :=
  apply (trace_try_except texts_refused);
  try exact texts_refused_nil; try exact texts_refused_app.

Lemma texts_refused_locate (w : World) (args : LocateArgs) :
  texts_refused (fst (locate w args)).
Proof.
  unfold locate. rewrite bind_emit. intros image text H. cbn [fst] in H.
  apply elem_of_cons in H as [H | H]; [discriminate H |].
  destruct (locateAllOnScreen w args); by apply elem_of_nil in H.
Qed.

Lemma texts_refused_resolve_region (w : World) (self : DetectionWorker) :
  texts_refused (fst (resolve_region w self)).
Proof.
  destruct (resolve_region_cases w self)
    as [(e & _ & _ & ->) | [(it & _ & _ & _ & ->)
        | [(it & a & l & r & _ & _ & _ & ->) | (_ & ->)]]];
    intros image text H; cbn [fst] in H;
    repeat (apply elem_of_cons in H as [H | H];
            [first [discriminate H | left; by inversion H] |]);
    by apply elem_of_nil in H.
Qed.

Lemma texts_refused_capture_and_read (w : World) (self : DetectionWorker)
    (r : Rect) :
  texts_refused (fst (capture_and_read w self r)).
Proof.
  unfold capture_and_read, capture. rewrite bind_assoc, bind_emit.
  cbn [fst]. change (Capture r :: ?t) with ([Capture r] ++ t).
  apply texts_refused_app.
  { intros image text H. apply list_elem_of_singleton in H. discriminate. }
  texts_bind;
    [texts_lift |].
  intros [img |]; [| apply texts_refused_failure].
  destruct (size img =? 0); [apply texts_refused_failure |].
  texts_bind;
    [texts_lift | intros preview].
  texts_bind;
    [texts_lift | intros [[h w_] ch]].
  rewrite run_ocr_unexpected_keyword.
  intros image text H. cbn in H.
  repeat (apply elem_of_cons in H as [H | H];
          [first [discriminate H | right; by inversion H] |]).
  by apply elem_of_nil in H.
Qed.

(** X4.  With [get_text_from_image] as [text_recognition.py] declares it,
    the region capture never delivers recognised text: whenever a run emits
    a captured (non-null) image, the text beside it is the message of the
    [TypeError] that the call of lines 139-143 raises for its keyword
    [mode]; the OCR engine, the language and the OCR mode play no part. *)
Theorem captured_image_comes_with_keyword_error (w : World)
    (self : DetectionWorker) (image : QImage) (text : string) :
  text_signal image text ∈ trace (run_text_extraction w self) ->
  image <> QImage_null ->
  text = "OCR Error: get_text_from_image() got an unexpected keyword argument 'mode'".
Proof.
  intros Hin Hnn.
  assert (texts_refused (trace (run_text_extraction w self))) as Hall.
  { unfold run_text_extraction, trace.
    texts_try;
      [| intros e; apply texts_refused_failure].
    texts_bind;
      [texts_lift | intros _].
    texts_bind;
      [texts_lift | intros monitors].
    texts_bind.
    { destruct (_ <? _); [texts_lift |].
      apply texts_refused_nil. }
    intros _.
    texts_bind;
      [apply texts_refused_resolve_region |].
    intros [final_region |]; [| apply texts_refused_failure].
    texts_bind;
      [texts_lift | intros offsets].
    apply texts_refused_capture_and_read. }
  by destruct (Hall image text Hin).
Qed.

Lemma captured_image_comes_with_keyword_error_witness :
  text_signal (QImage_RGBA8888 [3; 2; 1; 4] 1 1 4) keyword_error
    ∈ trace (run_text_extraction example_world static_text_worker) /\
  keyword_error
  = "OCR Error: get_text_from_image() got an unexpected keyword argument 'mode'".
Proof.
  assert (text_signal (QImage_RGBA8888 [3; 2; 1; 4] 1 1 4) keyword_error
            ∈ trace (run_text_extraction example_world static_text_worker))
    as Hin.
  { apply elem_of_cons; right. apply elem_of_cons; right.
    apply elem_of_cons; left. reflexivity. }
  split; [exact Hin |].
  apply (captured_image_comes_with_keyword_error example_world
           static_text_worker (QImage_RGBA8888 [3; 2; 1; 4] 1 1 4));
    [exact Hin | discriminate].
Defined.

(** ** Region capture: the region taken from the anchor *)

(** X5.  With anchor image, anchor configuration and base rectangle set
    and at least one anchor found, the region capture makes one search, takes
    the position of the first anchor only, adds the offset of the base
    rectangle to it and keeps the base rectangle's size: the other anchors
    and the size of the anchor play no part in the region it captures. *)
Theorem text_region_follows_first_anchor (w : World) (self : DetectionWorker)
    (selected_screen : Rect) (anchors_iter : pyiter) (others : list Rect)
    (ax ay aw ah rel_x rel_y rw rh top bottom left_ right_ : Z) :
  text_setup w self selected_screen ->
  truthy (anchor_img self) = true ->
  truthy_dict (anchor_config self) = true ->
  text_rect self = Some (rel_x, rel_y, rw, rh) ->
  text_offsets self = Some (top, bottom, left_, right_) ->
  locateAllOnScreen w (anchor_args self) = Ok anchors_iter ->
  (iterate anchors_iter).1 = (ax, ay, aw, ah) :: others ->
  resolve_region w self
  = ([Locate (anchor_args self)], Normal (Some (ax + rel_x, ay + rel_y, rw, rh))) /\
  exists rest,
    trace (run_text_extraction w self)
    = Locate (anchor_args self)
      :: Capture (ax + rel_x - left_, ay + rel_y - top,
                  rw + left_ + right_, rh + top + bottom)
      :: rest.
Proof.
  intros Hsetup Himg Hcfg Hrect Hoff Hloc Hfirst.
  assert (resolve_region w self
          = ([Locate (anchor_args self)],
             Normal (Some (ax + rel_x, ay + rel_y, rw, rh)))) as Hres.
  { unfold resolve_region.
    rewrite Himg, Hcfg, Hrect, (bind_locate_Ok _ _ _ _ Hloc), Hfirst.
    reflexivity. }
  split; [exact Hres |].
  rewrite (run_text_extraction_setup _ _ _ Hsetup). unfold trace.
  destruct (try_except_trace
              (final_region <- resolve_region w self ;;
               after_region w self final_region) text_handler) as [rest ->].
  rewrite Hres. unfold bind at 1. cbn [fst snd after_region].
  rewrite Hoff. cbn [unpack4]. rewrite bind_lift_Ok.
  destruct (capture_and_read_trace w self
              (capture_region (ax + rel_x, ay + rel_y, rw, rh)
                 (top, bottom, left_, right_))) as [rest' ->].
  exists (rest' ++ rest). reflexivity.
Qed.

Lemma text_region_follows_first_anchor_witness :
  resolve_region example_world anchored_text_worker
  = ([Locate (anchor_args anchored_text_worker)],
     Normal (Some (210, 310, 20, 20))) /\
  exists rest,
    trace (run_text_extraction example_world anchored_text_worker)
    = Locate (anchor_args anchored_text_worker)
      :: Capture (209, 308, 25, 25) :: rest.
Proof.
  exact (text_region_follows_first_anchor example_world anchored_text_worker
           (0, 0, 1920, 1080) (PyList [(200, 300, 30, 30)]) []
           200 300 30 30 10 10 20 20 2 3 1 4
           (example_text_setup anchored_text_worker eq_refl)
           eq_refl eq_refl eq_refl eq_refl eq_refl eq_refl).
Defined.

(** X6.  The fine-tuning offsets default to [None] in [__init__].  When
    they are left so, a run whose region was resolved makes no capture: the
    unpacking at line 107 raises and the run delivers the null image with
    the text "Error: cannot unpack non-iterable NoneType object". *)
Theorem missing_text_offsets_is_an_error (w : World) (self : DetectionWorker)
    (selected_screen : Rect) (region : Rect) :
  text_setup w self selected_screen ->
  snd (resolve_region w self) = Normal (Some region) ->
  text_offsets self = None ->
  run_text_extraction w self
  = (fst (resolve_region w self)
       ++ [text_signal QImage_null
             "Error: cannot unpack non-iterable NoneType object"],
     Normal tt).
Proof.
  intros Hsetup Hres Hoff.
  rewrite (run_text_extraction_setup _ _ _ Hsetup).
  unfold bind at 1. rewrite Hres. cbn [fst snd after_region].
  rewrite Hoff. unfold try_except. cbn. by rewrite app_nil_r.
Qed.

Lemma missing_text_offsets_is_an_error_witness :
  run_text_extraction example_world no_offsets_worker
  = ([text_signal QImage_null
        "Error: cannot unpack non-iterable NoneType object"],
     Normal tt).
Proof.
  exact (missing_text_offsets_is_an_error example_world no_offsets_worker
           (0, 0, 1920, 1080) (10, 10, 20, 20)
           (example_text_setup no_offsets_worker eq_refl) eq_refl eq_refl).
Defined.

(** ** Image detection: a configuration that lacks a key *)

Lemma derive_region_missing_key (cfg : gmap string Z) (mx my : Z)
    (anchor : Rect) (key : string) :
  key ∈ required_keys -> cfg !! key = None ->
  exists key', derive_region cfg mx my anchor = raise (KeyError key').
Proof.
  intros Hkey Hnone. unfold derive_region, dict_getitem.
  destruct anchor as [[[ax ay] aw] ah].
  destruct (cfg !! "offset_x") as [ox |] eqn:Hox; [| by eexists].
  destruct (cfg !! "offset_y") as [oy |] eqn:Hoy; [| by eexists].
  rewrite !bind_lift_Ok. cbn [global_to_local local_to_global].
  destruct (cfg !! "w") as [cw |] eqn:Hcw; [| by eexists].
  destruct (cfg !! "h") as [ch |] eqn:Hch; [| by eexists].
  exfalso. unfold required_keys in Hkey.
  repeat (apply elem_of_cons in Hkey as [-> | Hkey]; [congruence |]).
  by apply elem_of_nil in Hkey.
Qed.

(** X7.  When the anchor configuration lacks one of the keys [offset_x],
    [offset_y], [w], [h] and at least one anchor is found, the detection
    makes no nested search and emits the empty result: the anchors that
    were found are not reported either. *)
Theorem missing_anchor_key_gives_empty_result (w : World)
    (self : DetectionWorker) (cfg : gmap string Z) (selected_screen : Rect)
    (anchors_iter : pyiter) (anchor : Rect) (others : list Rect)
    (key : string) :
  image_setup w self selected_screen ->
  truthy (anchor_img self) = true ->
  anchor_config self = Some cfg ->
  cfg <> ∅ ->
  key ∈ required_keys ->
  cfg !! key = None ->
  locateAllOnScreen w (anchor_args self) = Ok anchors_iter ->
  (iterate anchors_iter).1 = anchor :: others ->
  run_image_detection w self
  = ([Locate (anchor_args self); result_signal [] [] [] 0], Normal tt).
Proof.
  intros (monitors & target_dpr & scale & Hm & HS & Hlt & Hget & Hdpr & Hscale)
         Himg Hcfg Hne Hkey Hnone Hloc Hfirst.
  unfold run_image_detection.
  rewrite Hm, bind_lift_Ok, HS, bind_lift_Ok.
  apply Z.ltb_lt in Hlt. rewrite Hlt, Hget, bind_lift_Ok, Hdpr, bind_lift_Ok.
  rewrite Hscale.
  rewrite bind_ret, Himg, Hcfg. cbn [truthy_dict].
  rewrite (bool_decide_eq_true_2 _ Hne). cbn [andb].
  rewrite (bind_locate_Ok _ _ _ _ Hloc), Hfirst. cbn [for_each].
  destruct (derive_region_missing_key cfg (dict_get cfg "margin_x" 0)
              (dict_get cfg "margin_y" 0) anchor key Hkey Hnone) as [key' Hd].
  assert (anchor_body w self cfg (dict_get cfg "margin_x" 0)
            (dict_get cfg "margin_y" 0) selected_screen anchor ([], [])
          = raise (KeyError key')) as ->.
  { unfold anchor_body. by rewrite Hd. }
  reflexivity.
Qed.

Lemma missing_anchor_key_gives_empty_result_witness :
  run_image_detection example_world incomplete_worker
  = ([Locate (anchor_args incomplete_worker); result_signal [] [] [] 0],
     Normal tt).
Proof.
  apply (missing_anchor_key_gives_empty_result example_world incomplete_worker
           incomplete_anchor_config (0, 0, 1920, 1080)
           (PyList [(200, 300, 30, 30)]) (200, 300, 30, 30) [] "w");
    try reflexivity.
  - apply (example_image_setup _ (1%float, 1%float)); reflexivity.
  - intros H. apply (f_equal (fun m : gmap string Z => m !! "offset_x")) in H.
    discriminate H.
  - apply elem_of_cons; right. apply elem_of_cons; right.
    apply elem_of_cons; left. reflexivity.
Defined.

(** ** Image detection: the searches of a run with an anchor *)

Lemma searches_app (t1 t2 : list event) :
  searches (t1 ++ t2) = searches t1 ++ searches t2.
Proof. apply omap_app. Qed.

Lemma searches_locate_fmap {A} (f : A -> LocateArgs) (l : list A) :
  searches ((fun a => Locate (f a)) <$> l) = f <$> l.
Proof.
  induction l as [| a l IH]; [reflexivity |].
  cbn [fmap list_fmap]. change (searches (?e :: ?t)) with (searches ([e] ++ t)).
  rewrite searches_app. cbn. f_equal. exact IH.
Qed.

(** X8.  With an anchor configured and non-degenerate regions, a run makes
    the anchor search over the request's search region and then one search
    for the template per anchor, in anchor order, and nothing else.  The
    region of each nested search is the derived region moved into the frame
    of the selected monitor: the monitor's origin [(sx, sy)] is subtracted,
    the size is kept. *)
Theorem nested_searches_are_monitor_local (w : World) (self : DetectionWorker)
    (cfg : gmap string Z) (sx sy sw sh ox oy cw ch mx my : Z)
    (anchors_iter : pyiter) (scan : Rect -> pyiter) :
  image_setup w self (sx, sy, sw, sh) ->
  truthy (anchor_img self) = true ->
  anchor_config self = Some cfg ->
  cfg !! "offset_x" = Some ox ->
  cfg !! "offset_y" = Some oy ->
  cfg !! "w" = Some cw ->
  cfg !! "h" = Some ch ->
  dict_get cfg "margin_x" 0 = mx ->
  dict_get cfg "margin_y" 0 = my ->
  0 < cw + 2 * mx -> 0 < ch + 2 * my ->
  locateAllOnScreen w (anchor_args self) = Ok anchors_iter ->
  (forall a, a ∈ (iterate anchors_iter).1 ->
     locateAllOnScreen w
       (nested_args self (sx, sy, sw, sh) (region_of ox oy cw ch mx my a))
     = Ok (scan a)) ->
  searches (trace (run_image_detection w self))
  = anchor_args self
    :: ((fun a : Rect =>
           target_args self
             (Some (a.1.1.1 + ox - mx - sx, a.1.1.2 + oy - my - sy,
                    cw + 2 * mx, ch + 2 * my)))
          <$> (iterate anchors_iter).1).
Proof.
  intros Hsetup Himg Hcfg Hox Hoy Hcw Hch Hmx Hmy Hw Hh Hloc Hscan.
  erewrite run_image_detection_anchored; eauto using truthy_dict_lookup.
  2: { rewrite Hmx, Hmy.
       by apply (anchors_loop_scan w self cfg (sx, sy, sw, sh)
                   ox oy cw ch mx my). }
  unfold trace. cbn [fst].
  change (Locate ?a :: ?l) with ([Locate a] ++ l).
  rewrite !searches_app, searches_locate_fmap. cbn [searches omap app].
  rewrite app_nil_r. f_equal.
  apply list_fmap_ext. intros _ [[[ax ay] aw] ah] _. reflexivity.
Qed.

Lemma nested_searches_are_monitor_local_witness :
  searches (trace (run_image_detection example_world anchored_worker))
  = [anchor_args anchored_worker;
     target_args anchored_worker (Some (205, 305, 110, 60))].
Proof.
  apply (nested_searches_are_monitor_local example_world anchored_worker
           example_anchor_config 0 0 1920 1080 10 10 100 50 5 5
           (PyList [(200, 300, 30, 30)]) (fun _ => PyList [(7, 8, 9, 10)]));
    try reflexivity.
  apply (example_image_setup _ (1%float, 1%float)); reflexivity.
Defined.

(** ** Image detection without an anchor *)

(** X9.  Without an anchor, a run makes one search, for the template, over
    the request's search region as it was given, and emits what the search
    returned with no anchor.  Without a search region no scanned region is
    reported; with one, the region reported is the search region with x and
    width multiplied by [scale_x], y and height by [scale_y], each
    truncated to an integer: the region reported is scaled, the region
    searched is not. *)
Theorem direct_scan_result (w : World) (self : DetectionWorker)
    (monitors : list Rect) (selected_screen : Rect) (target_dpr : option float)
    (scale_x scale_y : float) (items : list Rect) :
  get_monitors_safe w = Ok monitors ->
  Session w (screen_idx self) (source_resolution self) (source_dpr self) = Ok tt ->
  screen_idx self < Z.of_nat (length monitors) ->
  getitem monitors (screen_idx self) = Ok selected_screen ->
  get_monitor_dpr w (screen_idx self) monitors = Ok target_dpr ->
  scale_xy self target_dpr selected_screen = ret (scale_x, scale_y) ->
  truthy (anchor_img self) && truthy_dict (anchor_config self) = false ->
  locateAllOnScreen w (target_args self (search_region self)) = Ok (PyList items) ->
  (search_region self = None ->
   run_image_detection w self
   = ([Locate (target_args self None);
       result_signal items [] [] (Z.of_nat (length items))], Normal tt)) /\
  (forall rx ry rw rh x' y' w' h',
     search_region self = Some (rx, ry, rw, rh) ->
     int (float_of_int rx * scale_x) = Ok x' ->
     int (float_of_int ry * scale_y) = Ok y' ->
     int (float_of_int rw * scale_x) = Ok w' ->
     int (float_of_int rh * scale_y) = Ok h' ->
     run_image_detection w self
     = ([Locate (target_args self (Some (rx, ry, rw, rh)));
         result_signal items [] [(x', y', w', h')] (Z.of_nat (length items))],
        Normal tt)).
Proof.
  intros Hm HS Hlt Hget Hdpr Hscale Hdirect Hloc.
  assert (run_image_detection w self
          = try_except (direct_scan w self scale_x scale_y [] [])
              (fun _ => emit (result_signal [] [] [] 0))) as ->.
  { unfold run_image_detection.
    rewrite Hm, bind_lift_Ok, HS, bind_lift_Ok.
    apply Z.ltb_lt in Hlt.
    rewrite Hlt, Hget, bind_lift_Ok, Hdpr, bind_lift_Ok, Hscale, bind_ret.
    by rewrite Hdirect. }
  unfold direct_scan. split.
  - intros Hnone. rewrite Hnone in *.
    by rewrite bind_ret, (bind_locate_Ok _ _ _ _ Hloc).
  - intros rx ry rw rh x' y' w' h' Hsome Hx Hy Hw Hh. rewrite Hsome in *.
    by rewrite Hx, Hy, Hw, Hh, !bind_lift_Ok, bind_ret,
         (bind_locate_Ok _ _ _ _ Hloc).
Qed.

Lemma direct_scan_result_witness :
  run_image_detection example_world scaled_search_worker
  = ([Locate (target_args scaled_search_worker (Some (10, 20, 30, 40)));
      result_signal [(7, 8, 9, 10)] [] [(20, 40, 60, 80)] 1], Normal tt).
Proof.
  exact (proj2 (direct_scan_result example_world scaled_search_worker
                  [(0, 0, 1920, 1080)] (0, 0, 1920, 1080) (Some 1%float)
                  2%float 2%float [(7, 8, 9, 10)]
                  eq_refl eq_refl eq_refl eq_refl eq_refl eq_refl eq_refl eq_refl)
           10 20 30 40 20 40 60 80 eq_refl eq_refl eq_refl eq_refl eq_refl).
Defined.

(** X10.  Without an anchor, the detection takes [len] of what the search
    returned.  If the search hands back a one-shot iterator instead of a
    list, every such run ends in the empty result. *)
Theorem direct_scan_of_generator_gives_empty_result (w : World)
    (self : DetectionWorker) (items : list Rect) :
  truthy (anchor_img self) && truthy_dict (anchor_config self) = false ->
  locateAllOnScreen w (target_args self (search_region self))
  = Ok (PyGenerator items) ->
  signals (trace (run_image_detection w self)) = [result_signal [] [] [] 0].
Proof.
  intros Hdirect Hloc. unfold run_image_detection, trace.
  destruct (get_monitors_safe w) as [monitors | e]; [| reflexivity].
  rewrite bind_lift_Ok.
  destruct (Session w _ _ _) as [[] | e]; [| reflexivity].
  rewrite bind_lift_Ok.
  destruct (screen_idx self <? Z.of_nat (length monitors)); [| reflexivity].
  destruct (getitem monitors (screen_idx self)) as [screen | e];
    [| reflexivity].
  rewrite bind_lift_Ok.
  destruct (get_monitor_dpr w _ _) as [target_dpr | e]; [| reflexivity].
  rewrite bind_lift_Ok.
  destruct (scale_xy_silent self target_dpr screen)
    as [[scale ->] | [msg ->]]; [| reflexivity].
  rewrite bind_ret, Hdirect. unfold direct_scan.
  destruct (search_region self) as [[[[rx ry] rw] rh] |].
  - destruct (int (float_of_int rx * scale.1)) as [x' | e]; [| reflexivity].
    destruct (int (float_of_int ry * scale.2)) as [y' | e]; [| reflexivity].
    destruct (int (float_of_int rw * scale.1)) as [w' | e]; [| reflexivity].
    destruct (int (float_of_int rh * scale.2)) as [h' | e]; [| reflexivity].
    rewrite !bind_lift_Ok, bind_ret, (bind_locate_Ok _ _ _ _ Hloc).
    reflexivity.
  - rewrite bind_ret, (bind_locate_Ok _ _ _ _ Hloc). reflexivity.
Qed.

(** ** Image detection: what the scale factors do not touch *)

(** The pixel ratio of the monitor enters the scale factors in [dpr] mode
    only, where the computation raises nothing. *)
Lemma scale_xy_target_dpr (self : DetectionWorker) (dpr1 dpr2 : option float)
    (selected_screen : Rect) :
  (exists scale1 scale2,
     scale_xy self dpr1 selected_screen = ret scale1 /\
     scale_xy self dpr2 selected_screen = ret scale2) \/
  scale_xy self dpr1 selected_screen = scale_xy self dpr2 selected_screen.
Proof.
  destruct (String.eqb (scaling_type self) "dpr") eqn:Hmode.
  - left.
    destruct (scale_xy_silent self dpr1 selected_screen) as [[s1 H1] | [m H1]],
             (scale_xy_silent self dpr2 selected_screen) as [[s2 H2] | [m' H2]];
      [by eauto | exfalso; revert H2 | exfalso; revert H1 | exfalso; revert H1].
    all: unfold scale_xy; rewrite Hmode;
      destruct (source_dpr self) as [s |]; simpl; try discriminate;
      destruct (PrimFloat.eqb s 0) eqn:Hs; simpl; try discriminate.
    all: match goal with
         | |- context [truthy_float ?d] => destruct d as [t |]; simpl;
             try discriminate;
             destruct (PrimFloat.eqb t 0); simpl; try discriminate;
             by rewrite (truediv_nonzero t s Hs), bind_lift_Ok
         end.
  - right. unfold scale_xy. by rewrite Hmode.
Qed.

(** X11.  With an anchor configured, the pixel ratio that
    [get_monitor_dpr] reports for the monitor has no effect on the run: the
    scale factors are computed and then used by the scan without anchor
    only, so the searches, the regions reported and the matches are the
    same for any two ratios. *)
Theorem anchored_run_ignores_monitor_dpr (w : World) (self : DetectionWorker)
    (dpr1 dpr2 : option float) :
  truthy (anchor_img self) && truthy_dict (anchor_config self) = true ->
  run_image_detection (with_monitor_dpr dpr1 w) self
  = run_image_detection (with_monitor_dpr dpr2 w) self.
Proof.
  intros Hanchor. unfold run_image_detection.
  cbn [get_monitors_safe Session get_monitor_dpr with_monitor_dpr].
  destruct (get_monitors_safe w) as [monitors | e]; [| reflexivity].
  rewrite !bind_lift_Ok.
  destruct (Session w _ _ _) as [[] | e]; [| reflexivity].
  rewrite !bind_lift_Ok.
  destruct (screen_idx self <? Z.of_nat (length monitors)); [| reflexivity].
  destruct (getitem monitors (screen_idx self)) as [screen | e];
    [| reflexivity].
  rewrite !bind_lift_Ok.
  destruct (scale_xy_target_dpr self dpr1 dpr2 screen)
    as [(scale1 & scale2 & -> & ->) | ->]; [| reflexivity].
  rewrite !bind_ret, Hanchor. reflexivity.
Qed.

Lemma anchored_run_ignores_monitor_dpr_witness :
  run_image_detection (with_monitor_dpr (Some 1%float) example_world)
    anchored_worker
  = run_image_detection (with_monitor_dpr (Some 2%float) example_world)
      anchored_worker.
Proof.
  exact (anchored_run_ignores_monitor_dpr example_world anchored_worker
           (Some 1%float) (Some 2%float) eq_refl).
Defined.

(** ** [get_text_from_image]: what it raises *)



(** ** [_execute_ocr_async]: the choice of the language *)

Lemma prefix_refl (s : string) : String.prefix s s = true.
Proof.
  induction s as [| c s IH]; [reflexivity |].
  cbn [String.prefix]. by destruct (Ascii.ascii_dec c c).
Qed.

Lemma contains_prefix (needle hay : string) :
  String.prefix needle hay = true -> ocr.contains needle hay = true.
Proof.
  destruct hay as [| c hay]; cbn [ocr.contains]; [done |].
  intros ->. reflexivity.
Qed.

Lemma contains_empty (hay : string) : ocr.contains "" hay = true.
Proof. apply contains_prefix. by destruct hay. Qed.

Lemma find_first {A} (f : A -> bool) (l : list A) (x : A) :
  List.find f l = Some x ->
  exists pre post,
    l = pre ++ x :: post /\ f x = true /\ forall p, p ∈ pre -> f p = false.
Proof.
  induction l as [| a l IH]; [discriminate |].
  cbn [List.find]. destruct (f a) eqn:Hfa.
  - intros [= ->]. exists [], l. repeat split; [done |].
    intros p Hp. by apply elem_of_nil in Hp.
  - intros H. destruct (IH H) as (pre & post & -> & Hx & Hpre).
    exists (a :: pre), post. repeat split; [done |].
    intros p Hp. apply elem_of_cons in Hp as [-> | Hp]; auto.
Qed.

Lemma find_is_Some {A} (f : A -> bool) (l : list A) (x : A) :
  x ∈ l -> f x = true -> is_Some (List.find f l).
Proof.
  induction l as [| a l IH]; intros Hin Hx; [by apply elem_of_nil in Hin |].
  cbn [List.find]. destruct (f a) eqn:Hfa; [by eexists |].
  apply elem_of_cons in Hin as [-> | Hin]; [congruence | auto].
Qed.

(** X13.  [_execute_ocr_async] picks the first available language whose
    tag contains the requested tag, both taken in lower case.  So a request
    that is an available tag up to case, or the leading part of one ('en'
    for 'en-US'), always finds a language, and the empty request finds the
    first available language.  When the language found has no engine, the
    call fails with a [RuntimeError] that names the request: the languages
    of the user profile are tried only when no language was found. *)
Theorem ocr_language_selection (lang_tag : string) :
  (forall langs l,
     ocr.find_language lang_tag langs = Some l ->
     exists earlier later,
       langs = earlier ++ l :: later /\
       ocr.contains (ocr.lower lang_tag) (ocr.lower (ocr.language_tag l)) = true /\
       forall p, p ∈ earlier ->
         ocr.contains (ocr.lower lang_tag) (ocr.lower (ocr.language_tag p)) = false) /\
  (forall langs l,
     l ∈ langs ->
     String.prefix (ocr.lower lang_tag) (ocr.lower (ocr.language_tag l)) = true ->
     is_Some (ocr.find_language lang_tag langs)) /\
  (forall l langs, ocr.find_language "" (l :: langs) = Some l) /\
  (forall rt bitmap l,
     ocr.find_language lang_tag (ocr.available_recognizer_languages rt) = Some l ->
     ocr.try_create_from_language rt l = None ->
     ocr.execute_ocr_async true rt bitmap lang_tag
     = Err (RuntimeError ("Failed to create OcrEngine. Language '" +:+ lang_tag
                          +:+ "' might not be installed on this Windows system."))).
Proof.
  split; [| split; [| split]].
  - intros langs l H. by apply find_first in H.
  - intros langs l Hin Hpre. unfold ocr.find_language.
    apply (find_is_Some _ langs l Hin). by apply contains_prefix.
  - intros l langs. unfold ocr.find_language. cbn [List.find ocr.lower].
    by rewrite contains_empty.
  - intros rt bitmap l Hfound Hnone. unfold ocr.execute_ocr_async.
    cbn [negb]. by rewrite Hfound, Hnone.
Qed.

Lemma ocr_language_selection_witness :
  is_Some (ocr.find_language "EN" example_languages).
Proof.
  apply (proj1 (proj2 (ocr_language_selection "EN")) example_languages
           {| ocr.language_tag := "en-US" |}).
  - apply elem_of_cons; right. apply elem_of_cons; left. reflexivity.
  - reflexivity.
Defined.

(** ** The overlay: where the matches are drawn *)

Lemma boxes_app (l1 l2 : list overlay.paint) :
  boxes (l1 ++ l2) = boxes l1 ++ boxes l2.
Proof. apply omap_app. Qed.

Lemma dots_app (l1 l2 : list overlay.paint) :
  dots (l1 ++ l2) = dots l1 ++ dots l2.
Proof. apply omap_app. Qed.

(** The computation of a box asks nothing of the painter. *)
Lemma box_silent (mapFromGlobal : Point -> Point) (self : overlay.Overlay)
    (rect : overlay.NumRect) :
  (overlay.box mapFromGlobal self rect).1 = [].
Proof.
  destruct rect as [[[x y] w] h]. unfold overlay.box, overlay.and_then.
  destruct (add x _); [| done]. destruct (add y _); [| done]. cbn.
  destruct (to_int _); [| done]. destruct (to_int _); [| done]. cbn.
  destruct (round w); [| done]. destruct (round h); done.
Qed.

(** What one pass of the loop does when the click target is off: it draws
    the box, or it ends the painting before it has drawn anything. *)
Lemma paint_match_off (mapFromGlobal : Point -> Point) (self : overlay.Overlay)
    (rect : overlay.NumRect) :
  overlay.show_click self = false ->
  overlay.paint_match mapFromGlobal self rect
  = match (overlay.box mapFromGlobal self rect).2 with
    | Ok (x, y, w, h) =>
        ([overlay.pen_box; overlay.brush_box; overlay.drawRect x y w h], Ok tt)
    | Err e => ([], Err e)
    end.
Proof.
  intros Hoff. unfold overlay.paint_match, overlay.and_then at 1.
  rewrite box_silent, Hoff.
  destruct (overlay.box mapFromGlobal self rect).2 as [[[[x y] w] h] | e];
    reflexivity.
Qed.

Lemma paint_rects_off (mapFromGlobal : Point -> Point) (self : overlay.Overlay)
    (l : list overlay.NumRect) :
  overlay.show_click self = false ->
  boxes (overlay.paint_rects mapFromGlobal self l).1
  = until_error (fun rect => (overlay.box mapFromGlobal self rect).2) l /\
  dots (overlay.paint_rects mapFromGlobal self l).1 = [].
Proof.
  intros Hoff. induction l as [| rect l [IHb IHd]]; [done |].
  cbn [overlay.paint_rects until_error]. unfold overlay.and_then.
  rewrite (paint_match_off _ _ _ Hoff).
  destruct (overlay.box mapFromGlobal self rect).2 as [[[[x y] w] h] | e];
    [| done].
  cbn [fst snd]. rewrite boxes_app, dots_app, IHb, IHd. done.
Qed.

(** The box of a rectangle of ints under offsets that are ints: nothing is
    truncated or rounded. *)
Lemma box_int_rect (mapFromGlobal : Point -> Point) (self : overlay.Overlay)
    (mx my : Z) (rect : Rect) :
  overlay.target_offset_x self = PyInt mx ->
  overlay.target_offset_y self = PyInt my ->
  (overlay.box mapFromGlobal self (int_rect rect)).2
  = Ok ((mapFromGlobal (rect.1.1.1 + mx, rect.1.1.2 + my)).1,
        (mapFromGlobal (rect.1.1.1 + mx, rect.1.1.2 + my)).2,
        width rect, height rect).
Proof.
  intros Hx Hy. destruct rect as [[[x y] w] h].
  unfold overlay.box, int_rect. by rewrite Hx, Hy.
Qed.

Lemma until_error_int_rects (mapFromGlobal : Point -> Point) (origin : Point)
    (self : overlay.Overlay) (mx my : Z) (l : list Rect) :
  overlay.target_offset_x self = PyInt mx ->
  overlay.target_offset_y self = PyInt my ->
  (forall p, mapFromGlobal p = (p.1 - origin.1, p.2 - origin.2)) ->
  until_error (fun rect => (overlay.box mapFromGlobal self rect).2)
    (int_rect <$> l)
  = (fun rect => global_to_local (local_to_global rect (mx, my)) origin) <$> l.
Proof.
  intros Hx Hy Hmap. induction l as [| [[[x y] w] h] l IH]; [done |].
  cbn [fmap list_fmap until_error].
  rewrite (box_int_rect _ _ mx my (x, y, w, h) Hx Hy), Hmap.
  fold (fmap (M := list) int_rect l). rewrite IH.
  destruct origin as [wx wy]. done.
Qed.

(** A size that is not a finite float ends the painting before the box. *)
Lemma box_not_finite (mapFromGlobal : Point -> Point) (self : overlay.Overlay)
    (x y w h : number) :
  not_finite w \/ not_finite h ->
  exists e, (overlay.box mapFromGlobal self (x, y, w, h)).2 = Err e.
Proof.
  assert (forall n, not_finite n -> exists e, round n = Err e) as Hround.
  { intros n (f & -> & [Hf | [s Hf]]); cbn; rewrite Hf; eauto. }
  intros Hsize. unfold overlay.box, overlay.and_then.
  destruct (add x _); [| cbn; eauto]. destruct (add y _); [| cbn; eauto]. cbn.
  destruct (to_int _); [| cbn; eauto]. destruct (to_int _); [| cbn; eauto]. cbn.
  destruct Hsize as [Hw | Hh].
  - destruct (Hround w Hw) as [e ->]. cbn. eauto.
  - destruct (round w); [| cbn; eauto]. cbn.
    destruct (Hround h Hh) as [e ->]. cbn. eauto.
Qed.

Lemma until_error_stops {A B} (f : A -> result B) (good rest : list A) (bad : A)
    (e : exn) :
  f bad = Err e -> until_error f (good ++ bad :: rest) = until_error f good.
Proof.
  intros Hbad. induction good as [| a good IH]; cbn [app until_error].
  - by rewrite Hbad.
  - destruct (f a); [by rewrite IH | done].
Qed.

(** X14.  After [set_target_screen_offset(mx, my)] and
    [update_rects(new_rects, scale)], with the click target switched off,
    [paintEvent] draws no ellipse and the boxes of the rectangles of
    [new_rects], in the order of the list, up to the first rectangle whose
    box cannot be computed; what was in the list before is gone.  The box
    is computed at lines 94-104: the position is the sum with the offset
    truncated to ints and mapped by the widget, the size is rounded.  For
    rectangles and offsets that are ints nothing is truncated or rounded:
    when the widget maps a global point by subtracting its own origin, the
    box is [global_to_local (local_to_global rect (mx, my)) origin], with
    the size of the rectangle unchanged.  A rectangle whose width or height
    is a float that is not finite ends the painting: neither it nor any
    rectangle after it is drawn. *)
Theorem overlay_boxes (mapFromGlobal : Point -> Point) (self : overlay.Overlay)
    (mx my : number) (new_rects : list overlay.NumRect) (scale : float) :
  let shown :=
    overlay.update_rects (overlay.set_target_screen_offset self mx my)
      new_rects scale in
  overlay.show_click self = false ->
  dots (overlay.paintEvent mapFromGlobal shown) = [] /\
  boxes (overlay.paintEvent mapFromGlobal shown)
  = until_error (fun rect => (overlay.box mapFromGlobal shown rect).2) new_rects /\
  (forall (origin : Point) (int_mx int_my : Z) (l : list Rect),
     mx = PyInt int_mx -> my = PyInt int_my -> new_rects = int_rect <$> l ->
     (forall p, mapFromGlobal p = (p.1 - origin.1, p.2 - origin.2)) ->
     boxes (overlay.paintEvent mapFromGlobal shown)
     = (fun rect =>
          global_to_local (local_to_global rect (int_mx, int_my)) origin)
         <$> l) /\
  (forall good x y w h rest,
     new_rects = good ++ (x, y, w, h) :: rest ->
     not_finite w \/ not_finite h ->
     boxes (overlay.paintEvent mapFromGlobal shown)
     = until_error (fun rect => (overlay.box mapFromGlobal shown rect).2) good).
Proof.
  intros shown Hoff.
  assert (dots (overlay.paintEvent mapFromGlobal shown) = [] /\
          boxes (overlay.paintEvent mapFromGlobal shown)
          = until_error (fun rect => (overlay.box mapFromGlobal shown rect).2)
              new_rects) as [Hdots Hboxes].
  { unfold overlay.paintEvent. subst shown.
    cbn [overlay.rects overlay.update_rects].
    destruct new_rects as [| rect l]; [done |].
    unfold overlay.and_then at 1 2. cbn [fst snd overlay.call app].
    match goal with
    | |- context [overlay.paint_rects _ ?o ?l] =>
        destruct (paint_rects_off mapFromGlobal o l Hoff) as [Hb Hd]
    end.
    split; [exact Hd | exact Hb]. }
  split; [exact Hdots |]. split; [exact Hboxes |]. split.
  - intros origin int_mx int_my l -> -> -> Hmap. rewrite Hboxes.
    by apply until_error_int_rects.
  - intros good x y w h rest -> Hsize. rewrite Hboxes.
    destruct (box_not_finite mapFromGlobal shown x y w h Hsize) as [e He].
    by apply (until_error_stops _ good rest (x, y, w, h) e).
Qed.

Lemma overlay_boxes_witness :
  boxes (overlay.paintEvent (fun p => (p.1 - 0, p.2 - 0))
           (overlay.update_rects
              (overlay.set_target_screen_offset example_overlay
                 (PyInt 1920) (PyInt 0))
              [int_rect (7, 8, 9, 10); fractional_rect; nan_rect;
               int_rect (100, 200, 30, 40)] 1))
  = [(1927, 8, 9, 10); (1919, 7, 2, 4)] /\
  dots (overlay.paintEvent (fun p => (p.1 - 0, p.2 - 0))
          (overlay.update_rects
             (overlay.set_target_screen_offset example_overlay
                (PyInt 1920) (PyInt 0))
             [int_rect (7, 8, 9, 10); fractional_rect; nan_rect;
              int_rect (100, 200, 30, 40)] 1))
  = [].
Proof.
  pose proof (overlay_boxes (fun p => (p.1 - 0, p.2 - 0)) example_overlay
                (PyInt 1920) (PyInt 0)
                [int_rect (7, 8, 9, 10); fractional_rect; nan_rect;
                 int_rect (100, 200, 30, 40)] 1 eq_refl)
    as (Hdots & _ & _ & Hstop).
  split; [| exact Hdots].
  exact (Hstop [int_rect (7, 8, 9, 10); fractional_rect]
           (PyInt 5) (PyInt 6) (PyFloat nan) (PyInt 8)
           [int_rect (100, 200, 30, 40)] eq_refl
           (or_introl (ex_intro _ nan (conj eq_refl (or_introl eq_refl))))).
Defined.

(** ** Image detection with an anchor: nested scans that are generators *)

Lemma nested_generator_matches_appended_once_witness :
  signals (trace (run_image_detection generator_world anchored_worker))
  = [result_signal [(7, 8, 9, 10)] [(200, 300, 30, 30)]
       [(205, 305, 110, 60)] 1].
Proof.
  apply (nested_generator_matches_appended_once generator_world anchored_worker
           example_anchor_config (0, 0, 1920, 1080) 10 10 100 50 5 5
           (PyList [(200, 300, 30, 30)]) (fun _ => [(7, 8, 9, 10)]));
    try reflexivity.
  exists [(0, 0, 1920, 1080)], (Some 1%float), (1%float, 1%float).
  repeat split.
Defined.

Lemma direct_scan_of_generator_gives_empty_result_witness :
  signals (trace (run_image_detection generator_world resolution_worker))
  = [result_signal [] [] [] 0].
Proof.
  exact (direct_scan_of_generator_gives_empty_result generator_world
           resolution_worker [(7, 8, 9, 10)] eq_refl eq_refl).
Defined.
